(** * Club Lit: chat, membership and presence

    A shallow embedding of the chat routes ([server/routes/messages.js]),
    the membership routes of [server/routes/clubs.js] and the Socket.IO
    presence handlers of the server entry point, followed by the properties
    of the specification that concern them.

    The document store is three collections keyed by [_id]; every route
    handler is a function from the request and the store to an HTTP response
    and the store it leaves behind.  [Date.now()] and the identifier that
    [Message.create] mints are inputs of the handlers that use them. *)

From Stdlib Require Import ZArith Ascii String.
From stdpp Require Import gmap strings list fin_maps sorting.

Open Scope string_scope.

(** ** Strings *)

(** [String.prototype.trim] on strings whose code units are below 256: the
    white space and line terminators of ECMAScript in that range are TAB, LF,
    VT, FF, CR, SP and NBSP. *)
Definition isWhiteSpace (c : ascii) : bool :=
  match nat_of_ascii c with
  | 9%nat | 10%nat | 11%nat | 12%nat | 13%nat | 32%nat | 160%nat => true
  | _ => false
  end.

Fixpoint trimStart (s : string) : string :=
  match s with
  | EmptyString => EmptyString
  | String c s' => if isWhiteSpace c then trimStart s' else s
  end.

Fixpoint trimEnd (s : string) : string :=
  match s with
  | EmptyString => EmptyString
  | String c s' =>
      match trimEnd s' with
      | EmptyString => if isWhiteSpace c then EmptyString else String c EmptyString
      | t => String c t
      end
  end.

Definition trim (s : string) : string := trimEnd (trimStart s).

(** [const toStringId = (value) => value?.toString();] identifiers are kept
    as their string form throughout, so the conversion is the identity. *)
Definition toStringId (value : string) : string := value.

(** [Array.prototype.includes] on an array of strings. *)
Definition includes (l : list string) (x : string) : bool := bool_decide (x ∈ l).

(** ** Documents *)

Module Club.
Record t := mk { _id : string; createdBy : string; members : list string }.
End Club.

Module User.
Record t := mk {
  _id : string; isAdmin : bool; UserName : string; avatar : string;
  joinedClubs : list string }.
End User.

(** The schema of the collection, models/Message.js, is not part of this
    development: the fields are those that [POST /] hands to
    [Message.create], together with the [_id] the store assigns. *)
Module Message.
Record t := mk {
  _id : string; user : string; username : string; avatar : string;
  message : string; clubId : string; timestamp : Z }.
End Message.

(** The three collections of the document store. *)
Record Db := mkDb {
  clubs : gmap string Club.t;
  users : gmap string User.t;
  messages : gmap string Message.t }.

(** [req.user] as [authenticateToken] builds it. *)
Record ReqUser := mkReqUser { req_id : string; req_isAdmin : bool }.

(** What [Number.parseInt] can return. *)
Inductive JsNumber := NaN | Infinity (negative : bool) | Finite (z : Z).

(** ** Responses *)

Inductive Body :=
| ErrorJson (error : string)            (* { error } *)
| MessageJson (message : string)        (* { message } *)
| SuccessJson (message : string)        (* { success: true, message } *)
| Doc (m : Message.t)
| Docs (l : list Message.t).

Record Response := mkResponse { status : nat; body : Body }.

Definition succeeded (r : Response) : Prop := status r = 200%nat ∨ status r = 201%nat.
Definition ValidationError (r : Response) : Prop := status r = 400%nat.
Definition PermissionError (r : Response) : Prop := status r = 403%nat.
Definition NotFoundError (r : Response) : Prop := status r = 404%nat.

(** ** server/routes/messages.js *)

Definition TIME_LIMIT_MS : Z := 5 * 60 * 1000.

Definition serializeMessage (doc : Message.t) : Message.t :=
  Message.mk (toStringId (Message._id doc)) (toStringId (Message.user doc))
    (Message.username doc) (Message.avatar doc) (Message.message doc)
    (toStringId (Message.clubId doc)) (Message.timestamp doc).

(** [typeof message === "string" ? message.trim() : ""]: a body field that is
    not a string is [None]. *)
Definition trimmed (message : option string) : string :=
  match message with Some s => trim s | None => "" end.

(** [value || fallback] on strings. *)
Definition orElse (value fallback : string) : string :=
  if decide (value = "") then fallback else value.

(** The limit of [GET /:clubId] from the parsed query parameter. *)
Definition limitOf (limitParam : JsNumber) : nat :=
  match limitParam with
  | Finite z => if (0 <? z)%Z then Z.to_nat (Z.min z 500) else 200
  | _ => 200
  end.

Definition byTimestamp (a b : Message.t) : Prop :=
  (Message.timestamp a ≤ Message.timestamp b)%Z.

Global Instance byTimestamp_dec a b : Decision (byTimestamp a b).
Proof. unfold byTimestamp. apply _. Defined.

(** [Message.find({ clubId })]: the documents of the collection that carry
    this club id. *)
Definition clubMessages (clubId : string) (db : Db) : list Message.t :=
  filter (λ m, Message.clubId m = clubId) (map_to_list (messages db)).*2.

(** [Message.find({ clubId }).sort({ timestamp: 1 }).limit(limit).lean()] *)
Definition findByClub (clubId : string) (limit : nat) (db : Db) : list Message.t :=
  take limit (merge_sort byTimestamp (clubMessages clubId db)).

(** [findIndex] of the first member equal to [userId]. *)
Fixpoint findIndex (userId : string) (l : list string) : option nat :=
  match l with
  | [] => None
  | x :: l' => if decide (toStringId x = userId) then Some 0%nat
               else S <$> findIndex userId l'
  end.

Section Routes.

(** [mongoose.Types.ObjectId.isValid], from the driver. *)
Variable isValidObjectId : string → bool.

(** The stored spelling of a valid identifier, [new ObjectId(value).toString()]:
    [findById], [push], [$pull] and [save] cast an identifier of the request
    this way, while a [===] or [!==] in a handler compares the request's own
    spelling with the stored one.  The cast is written out in the handlers
    that use one identifier both ways, [removeMember] here and [joinClub] of
    clubs.js; a handler that hands an identifier of the request to casting
    calls only ([sendMessage], [listMessages], [editMessage],
    [deleteMessage], [leaveClub], the club id of [clubs_removeMember]) takes
    it in its stored spelling. *)
Variable castObjectId : string → string.

(** [POST /] *)
Definition sendMessage (u : ReqUser) (message : option string) (clubId : string)
    (now : Z) (newId : string) (db : Db) : Response * Db :=
  let userId := req_id u in
  let trimmedMessage := trimmed message in
  if decide (trimmedMessage = "") then
    (mkResponse 400 (ErrorJson "Message text is required."), db)
  else if negb (isValidObjectId clubId) then
    (mkResponse 400 (ErrorJson "Invalid clubId format."), db)
  else
    match clubs db !! clubId, users db !! userId with
    | None, _ => (mkResponse 404 (ErrorJson "Club not found."), db)
    | Some club, user =>
        let memberIds := toStringId <$> Club.members club in
        if negb (includes memberIds userId) then
          (mkResponse 403 (ErrorJson "You must be a member of this club to chat."), db)
        else
          match user with
          | None =>
              (mkResponse 401
                 (ErrorJson "User context missing. Please re-authenticate."), db)
          | Some user =>
              let newMessage :=
                Message.mk newId userId (orElse (User.UserName user) "Unknown User")
                  (orElse (User.avatar user) "") trimmedMessage clubId now in
              (mkResponse 201 (Doc (serializeMessage newMessage)),
               mkDb (clubs db) (users db) (<[newId := newMessage]> (messages db)))
          end
    end.

(** [GET /:clubId] *)
Definition listMessages (u : ReqUser) (clubId : string) (limitParam : JsNumber)
    (db : Db) : Response * Db :=
  let userId := req_id u in
  let limit := limitOf limitParam in
  if negb (isValidObjectId clubId) then
    (mkResponse 400 (ErrorJson "Invalid clubId format."), db)
  else
    match clubs db !! clubId with
    | None => (mkResponse 404 (ErrorJson "Club not found."), db)
    | Some club =>
        let memberIds := toStringId <$> Club.members club in
        if negb (includes memberIds userId) then
          (mkResponse 403
             (ErrorJson "You must be a member of this club to view messages."), db)
        else
          let messages := findByClub clubId limit db in
          (mkResponse 200 (Docs (serializeMessage <$> messages)), db)
    end.

(** [PUT /:id] *)
Definition editMessage (u : ReqUser) (id : string) (message : option string)
    (now : Z) (db : Db) : Response * Db :=
  let userId := req_id u in
  let trimmedMessage := trimmed message in
  if decide (trimmedMessage = "") then
    (mkResponse 400 (ErrorJson "Message text is required."), db)
  else if negb (isValidObjectId id) then
    (mkResponse 400 (ErrorJson "Invalid message id format."), db)
  else
    match messages db !! id with
    | None => (mkResponse 404 (ErrorJson "Message not found."), db)
    | Some messageDoc =>
        if negb (bool_decide (toStringId (Message.user messageDoc) = userId)) then
          (mkResponse 403 (ErrorJson "You can only edit your own messages."), db)
        else
          let elapsed := (now - Message.timestamp messageDoc)%Z in
          if (TIME_LIMIT_MS <? elapsed)%Z then
            (mkResponse 403
               (ErrorJson "Messages can only be edited within five minutes of sending."),
             db)
          else
            let messageDoc' :=
              Message.mk (Message._id messageDoc) (Message.user messageDoc)
                (Message.username messageDoc) (Message.avatar messageDoc)
                trimmedMessage (Message.clubId messageDoc)
                (Message.timestamp messageDoc) in
            (mkResponse 200 (Doc (serializeMessage messageDoc')),
             mkDb (clubs db) (users db) (<[id := messageDoc']> (messages db)))
    end.

(** [DELETE /:id] *)
Definition deleteMessage (u : ReqUser) (id : string) (now : Z) (db : Db)
    : Response * Db :=
  let userId := req_id u in
  if negb (isValidObjectId id) then
    (mkResponse 400 (ErrorJson "Invalid message id format."), db)
  else
    match messages db !! id with
    | None => (mkResponse 404 (ErrorJson "Message not found."), db)
    | Some messageDoc =>
        match clubs db !! Message.clubId messageDoc with
        | None => (mkResponse 404 (ErrorJson "Club not found."), db)
        | Some club =>
            let isOwner := bool_decide (toStringId (Message.user messageDoc) = userId) in
            let isClubCreator := bool_decide (toStringId (Club.createdBy club) = userId) in
            let isAdmin := req_isAdmin u in
            let elapsed := (now - Message.timestamp messageDoc)%Z in
            let withinEditWindow := (elapsed <=? TIME_LIMIT_MS)%Z in
            if negb (isAdmin || isClubCreator || (isOwner && withinEditWindow)) then
              (mkResponse 403
                 (ErrorJson "You do not have permission to delete this message."), db)
            else
              (mkResponse 200 (SuccessJson "Message deleted successfully."),
               mkDb (clubs db) (users db) (delete id (messages db)))
        end
    end.

(** [DELETE /removeMember/:clubId/:userId] of messages.js: the club is saved
    before the member's user document is looked up.  [Club.findById] and
    [User.findById] cast the identifiers of the request; [findIndex] and the
    filter on [joinedClubs] compare them as the request spells them. *)
Definition removeMember (u : ReqUser) (clubId userId : string) (db : Db)
    : Response * Db :=
  if negb (isValidObjectId clubId) || negb (isValidObjectId userId) then
    (mkResponse 400 (ErrorJson "Invalid identifier format."), db)
  else
    match clubs db !! castObjectId clubId with
    | None => (mkResponse 404 (ErrorJson "Club not found."), db)
    | Some club =>
        let isCreator := bool_decide (toStringId (Club.createdBy club) = req_id u) in
        if negb isCreator && negb (req_isAdmin u) then
          (mkResponse 403
             (ErrorJson "Only club creators or admins can remove members."), db)
        else
          match findIndex userId (Club.members club) with
          | None => (mkResponse 404 (ErrorJson "Member not found in club."), db)
          | Some memberIndex =>
              let club' :=
                Club.mk (Club._id club) (Club.createdBy club)
                  (delete memberIndex (Club.members club)) in
              let db1 :=
                mkDb (<[castObjectId clubId := club']> (clubs db)) (users db)
                     (messages db) in
              match users db1 !! castObjectId userId with
              | None => (mkResponse 404 (ErrorJson "User not found."), db1)
              | Some member =>
                  let member' :=
                    User.mk (User._id member) (User.isAdmin member)
                      (User.UserName member) (User.avatar member)
                      (filter (λ clubRef, toStringId clubRef ≠ clubId)
                         (User.joinedClubs member)) in
                  (mkResponse 200 (MessageJson "Member removed successfully."),
                   mkDb (clubs db1) (<[castObjectId userId := member']> (users db1))
                        (messages db1))
              end
          end
    end.

(** *** server/routes/clubs.js

    [isValidId] of clubs.js is the same driver function. *)

(** [{ $pull: { joinedClubs: clubId } }] through [User.findByIdAndUpdate]:
    nothing happens when the user document does not exist. *)
Definition pullJoinedClub (userId clubId : string) (us : gmap string User.t)
    : gmap string User.t :=
  alter (λ member,
           User.mk (User._id member) (User.isAdmin member) (User.UserName member)
             (User.avatar member)
             (filter (λ clubRef, clubRef ≠ clubId) (User.joinedClubs member)))
        userId us.

(** [POST /leaveClub] *)
Definition leaveClub (u : ReqUser) (clubId : string) (db : Db) : Response * Db :=
  let userId := req_id u in
  if negb (isValidObjectId clubId) || negb (isValidObjectId userId) then
    (mkResponse 400 (MessageJson "Invalid user or club ID"), db)
  else
    match clubs db !! clubId with
    | None => (mkResponse 404 (MessageJson "Club not found"), db)
    | Some club =>
        let isCreator := bool_decide (toStringId (Club.createdBy club) = userId) in
        if isCreator then
          (mkResponse 400
             (MessageJson "Club creators must delete the club instead of leaving it."),
           db)
        else
          let club' :=
            Club.mk (Club._id club) (Club.createdBy club)
              (filter (λ member, toStringId member ≠ userId) (Club.members club)) in
          (mkResponse 200 (MessageJson "Left club successfully"),
           mkDb (<[clubId := club']> (clubs db))
                (pullJoinedClub userId clubId (users db)) (messages db))
    end.

(** [DELETE /:clubId/removeMember/:userId] of clubs.js *)
Definition clubs_removeMember (u : ReqUser) (clubId userId : string) (db : Db)
    : Response * Db :=
  if negb (isValidObjectId clubId) || negb (isValidObjectId userId) then
    (mkResponse 400 (MessageJson "Invalid ID format"), db)
  else
    match clubs db !! clubId with
    | None => (mkResponse 404 (MessageJson "Club not found"), db)
    | Some club =>
        let isCreator := bool_decide (toStringId (Club.createdBy club) = req_id u) in
        let isAdmin := req_isAdmin u in
        if negb (isCreator || isAdmin) then
          (mkResponse 403
             (MessageJson "Only the club creator or an admin can remove members."), db)
        else
          let wasMember :=
            bool_decide (Exists (λ member, toStringId member = userId)
                           (Club.members club)) in
          if negb wasMember then
            (mkResponse 404 (MessageJson "Member not found in club"), db)
          else
            let club' :=
              Club.mk (Club._id club) (Club.createdBy club)
                (filter (λ member, toStringId member ≠ userId) (Club.members club)) in
            (mkResponse 200 (MessageJson "Member removed successfully"),
             mkDb (<[clubId := club']> (clubs db))
                  (pullJoinedClub userId clubId (users db)) (messages db))
    end.

End Routes.

(** ** Presence: the Socket.IO handlers of the server entry point *)

(** A JavaScript [Set] of strings, in insertion order. *)
Definition Set_has (x : string) (s : list string) : bool := bool_decide (x ∈ s).
Definition Set_add (x : string) (s : list string) : list string :=
  if Set_has x s then s else s ++ [x].
Definition Set_delete (x : string) (s : list string) : bool * list string :=
  (Set_has x s, filter (λ y, y ≠ x) s).

(** A JavaScript [Map] from strings, in insertion order of its keys. *)
Fixpoint Map_get {V} (k : string) (m : list (string * V)) : option V :=
  match m with
  | [] => None
  | (k', v) :: m' => if decide (k' = k) then Some v else Map_get k m'
  end.

Definition Map_has {V} (k : string) (m : list (string * V)) : bool :=
  bool_decide (is_Some (Map_get k m)).

Fixpoint Map_set {V} (k : string) (v : V) (m : list (string * V)) : list (string * V) :=
  match m with
  | [] => [(k, v)]
  | (k', v') :: m' => if decide (k' = k) then (k, v) :: m' else (k', v') :: Map_set k v m'
  end.

(** What the handlers keep on a socket: the [userId] property that [joinRoom]
    assigns and the rooms the socket has joined. *)
Record Socket := mkSocket { userId : option string; rooms : list string }.

(** [onlineUsers] and the connected sockets, by socket id. *)
Record Server := mkServer {
  onlineUsers : list (string * list string);
  sockets : gmap string Socket }.

(** [io.to(room).emit(event, payload)] *)
Record Emit := mkEmit { to : string; event : string; payload : list string }.

(** A payload field that is truthy: present and not the empty string. *)
Definition truthy (v : option string) : option string :=
  match v with
  | Some s => if decide (s = "") then None else Some s
  | None => None
  end.

Definition initial : Server := mkServer [] ∅.

(** [io.on("connection", ...)]: a socket starts in the room of its own id. *)
Definition connection (sid : string) (srv : Server) : Server :=
  mkServer (onlineUsers srv) (<[sid := mkSocket None [sid]]> (sockets srv)).

(** [socket.on("joinRoom", ({ clubId, userId }) => ...)] *)
Definition joinRoom (sid : string) (clubId userId : option string) (srv : Server)
    : Server * list Emit :=
  match truthy userId, truthy clubId, sockets srv !! sid with
  | Some userId, Some clubId, Some socket =>
      let socket' := mkSocket (Some userId) (Set_add clubId (rooms socket)) in
      let online1 :=
        if Map_has clubId (onlineUsers srv) then onlineUsers srv
        else Map_set clubId [] (onlineUsers srv) in
      let userSet := default [] (Map_get clubId online1) in
      let userSet' := Set_add userId userSet in
      let members := userSet' in
      (mkServer (Map_set clubId userSet' online1) (<[sid := socket']> (sockets srv)),
       [mkEmit clubId "onlineUsers" members; mkEmit clubId "updateOnlineUsers" members])
  | _, _, _ => (srv, [])
  end.

(** The loop of the [disconnect] handler over [onlineUsers.entries()]. *)
Fixpoint sweep (uid : option string) (entries : list (string * list string))
    : list (string * list string) * list Emit :=
  match entries with
  | [] => ([], [])
  | (clubId, users) :: rest =>
      let (rest', emits) := sweep uid rest in
      match uid with
      | Some u =>
          let (deleted, users') := Set_delete u users in
          if deleted then
            ((clubId, users') :: rest',
             mkEmit clubId "onlineUsers" users'
               :: mkEmit clubId "updateOnlineUsers" users' :: emits)
          else ((clubId, users) :: rest', emits)
      | None => ((clubId, users) :: rest', emits)
      end
  end.

(** [socket.on("disconnect", ...)] *)
Definition disconnect (sid : string) (srv : Server) : Server * list Emit :=
  match sockets srv !! sid with
  | Some socket =>
      let (online', emits) := sweep (userId socket) (onlineUsers srv) in
      (mkServer online' (delete sid (sockets srv)), emits)
  | None => (srv, [])
  end.

(** Two sockets join the same club for the same user, [s1] first. *)
Definition joinBoth (s1 s2 c u : string) (srv : Server) : Server :=
  (joinRoom s2 (Some c) (Some u) (joinRoom s1 (Some c) (Some u) srv).1).1.

(** The online-user set of a club; a club never joined has none. *)
Definition online (clubId : string) (srv : Server) : list string :=
  default [] (Map_get clubId (onlineUsers srv)).

(** ** Fixtures

    A validator to run the routes with (24 hexadecimal characters) and a small
    store: club [cA] created by [uA] with members [uA] and [uB]; [uC] and the
    administrator [uAdmin] are not members; [uB] sent [m1] at time 1000. *)

Definition isHex (c : ascii) : bool :=
  let n := nat_of_ascii c in
  ((48 <=? n) && (n <=? 57) || (65 <=? n) && (n <=? 70) || (97 <=? n) && (n <=? 102))%nat.

Definition hex24 (s : string) : bool :=
  (String.length s =? 24)%nat && forallb isHex (list_ascii_of_string s).

(** The stored spelling of a 24-character hexadecimal identifier: its
    letters in lower case. *)
Definition lowerHexChar (c : ascii) : ascii :=
  let n := nat_of_ascii c in
  if ((65 <=? n) && (n <=? 70))%nat then ascii_of_nat (n + 32) else c.

Fixpoint lowerHex (s : string) : string :=
  match s with
  | EmptyString => EmptyString
  | String c s' => String (lowerHexChar c) (lowerHex s')
  end.

Definition cA : string := "aaaaaaaaaaaaaaaaaaaaaaaa".
Definition uA : string := "0000000000000000000000a1".
Definition uB : string := "0000000000000000000000b2".
Definition uC : string := "0000000000000000000000c3".
Definition uAdmin : string := "0000000000000000000000ad".
Definition m1 : string := "1111111111111111111111c1".

Definition clubA : Club.t := Club.mk cA uA [uA; uB].
Definition message1 : Message.t := Message.mk m1 uB "bob" "" "hello" cA 1000.

Definition db0 : Db :=
  mkDb {[ cA := clubA ]}
       (<[uA := User.mk uA false "alice" "" [cA]]>
          (<[uB := User.mk uB false "bob" "" [cA]]>
             (<[uC := User.mk uC false "carol" "" []]>
                {[ uAdmin := User.mk uAdmin true "root" "" [] ]})))
       {[ m1 := message1 ]}.

(** A store in which the member [uD] of club [cA] has no user document any
    more, as after [DELETE /api/admin/users/:id], which does not touch the
    member lists. *)
Definition uD : string := "0000000000000000000000d4".
Definition m2 : string := "2222222222222222222222c2".

Definition dbGone : Db :=
  mkDb {[ cA := Club.mk cA uA [uA; uD] ]}
       {[ uA := User.mk uA false "alice" "" [cA] ]}
       ∅.

(** Two browser tabs, connected and not yet in any club room. *)
Definition twoTabs : Server := connection "tab2" (connection "tab1" initial).

(** A store for the listing: club [cA] has three messages, stored out of
    send order, and an older message belongs to another club. *)
Definition m3 : string := "3333333333333333333333c3".
Definition m4 : string := "4444444444444444444444c4".
Definition message2 : Message.t := Message.mk m2 uA "alice" "" "second" cA 2000.
Definition message3 : Message.t := Message.mk m3 uA "alice" "" "third" cA 3000.
Definition message4 : Message.t :=
  Message.mk m4 uC "carol" "" "elsewhere" "bbbbbbbbbbbbbbbbbbbbbbbb" 500.

Definition dbChat : Db :=
  mkDb (clubs db0) (users db0)
       (<[m3 := message3]> (<[m4 := message4]> (<[m2 := message2]> {[ m1 := message1 ]}))).

(** The id of club [cA] as a request may spell it, in upper case. *)
Definition cAupper : string := "AAAAAAAAAAAAAAAAAAAAAAAA".

(** Requests by the users of the fixture store, an identifier for a second
    club, a club schema that accepts everything, and the two tabs after both
    have joined club ["C2"] for user ["X"]. *)
Definition cB : string := "bbbbbbbbbbbbbbbbbbbbbbbb".
Definition anyClub (name book description : string) : bool := true.
Definition reqA : ReqUser := mkReqUser uA false.
Definition reqB : ReqUser := mkReqUser uB false.
Definition reqC : ReqUser := mkReqUser uC false.
Definition reqAdmin : ReqUser := mkReqUser uAdmin true.
Definition tabsJoined : Server := joinBoth "tab1" "tab2" "C2" "X" twoTabs.

(** ** The other routes of server/routes/clubs.js

    [Club.t] and [User.t] carry the fields that membership depends on; the
    name, book and description of a club and the e-mail address and
    notifications of a user are not among them.  Where a route writes one of
    those, the write is described beside the definition. *)

(** A populated user reference after [sanitizeUserRef]. *)
Record UserRef := mkUserRef { ref_id : string; ref_UserName : string; ref_avatar : string }.

(** A club after [populate] and [serializeClub]. *)
Record SerializedClub := mkSerializedClub {
  sc_id : string; sc_createdBy : option UserRef; sc_members : list UserRef }.

(** [populate] of one reference: the document stored under the id, if any,
    through [sanitizeUserRef]. *)
Definition populateUser (us : gmap string User.t) (id : string) : option UserRef :=
  (λ usr, mkUserRef (toStringId id) (User.UserName usr) (User.avatar usr)) <$> us !! id.

(** [serializeClub] of a club whose [createdBy] and [members] have been
    populated: a creator without document is [null], members without
    document are dropped. *)
Definition serializeClub (us : gmap string User.t) (club : Club.t) : SerializedClub :=
  mkSerializedClub (toStringId (Club._id club))
    (populateUser us (Club.createdBy club))
    (omap (populateUser us) (Club.members club)).

Inductive ClubsBody :=
| CMessage (message : string)                      (* { message } *)
| CJoined (message : string) (club : SerializedClub) (* { message, club } *)
| CClub (club : SerializedClub)
| CDeleted (message deletedBy : string)            (* { message, deletedBy } *)
| CRanking (rows : list (string * nat)).           (* [{ _id, memberCount }] *)

Record ClubsResponse := mkClubsResponse { cstatus : nat; cbody : ClubsBody }.

(** [{ $addToSet: { joinedClubs: clubId } }] through [User.findByIdAndUpdate] *)
Definition addJoinedClub (userId clubId : string) (us : gmap string User.t)
    : gmap string User.t :=
  alter (λ member,
           User.mk (User._id member) (User.isAdmin member) (User.UserName member)
             (User.avatar member)
             (if bool_decide (clubId ∈ User.joinedClubs member)
              then User.joinedClubs member
              else User.joinedClubs member ++ [clubId]))
        userId us.

(** [User.updateMany({ joinedClubs: id }, { $pull: { joinedClubs: id } })] *)
Definition pullFromAll (clubId : string) (us : gmap string User.t) : gmap string User.t :=
  (λ member,
     if bool_decide (clubId ∈ User.joinedClubs member) then
       User.mk (User._id member) (User.isAdmin member) (User.UserName member)
         (User.avatar member)
         (filter (λ clubRef, clubRef ≠ clubId) (User.joinedClubs member))
     else member) <$> us.

Definition byMemberCountDesc (a b : string * nat) : Prop := (b.2 ≤ a.2)%nat.

Global Instance byMemberCountDesc_dec a b : Decision (byMemberCountDesc a b).
Proof. unfold byMemberCountDesc. apply _. Defined.

(** The pipeline of [GET /rankings/members] and [GET /rankings/most-members]:
    [$project] the member count, [$sort] it downwards, [$limit] 10. *)
Definition rankings (db : Db) : list (string * nat) :=
  take 10
    (merge_sort byMemberCountDesc
       ((λ club, (Club._id club, length (Club.members club)))
          <$> (map_to_list (clubs db)).*2)).

Section ClubRoutes.

(** [mongoose.Types.ObjectId.isValid], named [isValidId] in clubs.js. *)
Variable isValidId : string → bool.

(** The stored spelling of a valid identifier, as for messages.js. *)
Variable castObjectId : string → string.

(** Whether [newClub.save()] accepts a club with this name, book and
    description: the schema, models/Club.js, is not part of this
    development. *)
Variable clubSchemaAccepts : string → string → string → bool.

(** [POST /].  The body fields are strings when present.  The trimmed name,
    the book, the trimmed description and the [active] flag are stored on
    the club document beside [createdBy] and [members]; [newId] is the
    identifier of the new document. *)
Definition createClub (u : ReqUser) (name book description : option string)
    (newId : string) (db : Db) : ClubsResponse * Db :=
  match truthy name, truthy book, truthy description with
  | Some name, Some book, Some description =>
      if decide (req_id u = "") then
        (mkClubsResponse 401 (CMessage "Unauthorized"), db)
      else if negb (clubSchemaAccepts (trim name) book (trim description)) then
        (mkClubsResponse 500 (CMessage "Internal server error"), db)
      else
        let newClub := Club.mk newId (req_id u) [req_id u] in
        let users' := addJoinedClub (req_id u) newId (users db) in
        (mkClubsResponse 201 (CClub (serializeClub users' newClub)),
         mkDb (<[newId := newClub]> (clubs db)) users' (messages db))
  | _, _, _ => (mkClubsResponse 400 (CMessage "All fields are required"), db)
  end.

(** [POST /joinClub].  [Club.findById] and the two [push] calls cast the
    club id of the request; the test on [joinedClubs] compares it as the
    request spells it.  The user id is [req.user._id], which is a stored
    spelling already. *)
Definition joinClub (u : ReqUser) (clubId : string) (db : Db) : ClubsResponse * Db :=
  let userId := req_id u in
  if negb (isValidId userId) || negb (isValidId clubId) then
    (mkClubsResponse 400 (CMessage "Invalid user or club ID"), db)
  else
    match users db !! userId, clubs db !! castObjectId clubId with
    | Some user, Some club =>
        let isMember :=
          bool_decide (Exists (λ member, toStringId member = userId) (Club.members club)) in
        let club' :=
          if isMember then club
          else Club.mk (Club._id club) (Club.createdBy club) (Club.members club ++ [userId]) in
        let clubs' :=
          if isMember then clubs db else <[castObjectId clubId := club']> (clubs db) in
        let hasClub :=
          bool_decide (Exists (λ clubRef, toStringId clubRef = clubId)
                         (User.joinedClubs user)) in
        let user' :=
          User.mk (User._id user) (User.isAdmin user) (User.UserName user)
            (User.avatar user) (User.joinedClubs user ++ [castObjectId clubId]) in
        let users' := if hasClub then users db else <[userId := user']> (users db) in
        (mkClubsResponse 200 (CJoined "Joined club successfully" (serializeClub users' club')),
         mkDb clubs' users' (messages db))
    | _, _ => (mkClubsResponse 404 (CMessage "User or club not found"), db)
    end.

(** [GET /:id] *)
Definition getClub (u : ReqUser) (id : string) (db : Db) : ClubsResponse :=
  if negb (isValidId id) then mkClubsResponse 400 (CMessage "Invalid club ID")
  else
    match clubs db !! id with
    | None => mkClubsResponse 404 (CMessage "Club not found")
    | Some club =>
        let members := omap (populateUser (users db)) (Club.members club) in
        let isMember :=
          bool_decide (Exists (λ member, toStringId (ref_id member) = req_id u) members) in
        let isCreator :=
          match populateUser (users db) (Club.createdBy club) with
          | Some creator => bool_decide (toStringId (ref_id creator) = req_id u)
          | None => false
          end in
        if negb isMember && negb isCreator then
          mkClubsResponse 403
            (CMessage "You must be a member or the club creator to view details.")
        else mkClubsResponse 200 (CClub (serializeClub (users db) club))
    end.

(** [DELETE /:id], both handlers.  The third component is the user, if any,
    onto whose [notifications] the message that the club was deleted by an
    administrator is pushed. *)
Definition deleteClub (u : ReqUser) (id : string) (db : Db)
    : ClubsResponse * Db * option string :=
  if negb (isValidId id) then (mkClubsResponse 400 (CMessage "Invalid club ID"), db, None)
  else
    match clubs db !! id with
    | None => (mkClubsResponse 404 (CMessage "Club not found"), db, None)
    | Some club =>
        let isCreator := bool_decide (toStringId (Club.createdBy club) = req_id u) in
        let isAdmin := req_isAdmin u in
        if negb (isCreator || isAdmin) then
          (mkClubsResponse 403
             (CMessage "Only the club creator or an admin can delete a club."), db, None)
        else
          let isAdminDeleting := isAdmin && negb isCreator in
          let users' := pullFromAll id (users db) in
          let notified :=
            if isAdminDeleting then
              match users' !! Club.createdBy club with
              | Some creator => Some (Club.createdBy club)
              | None => None
              end
            else None in
          (mkClubsResponse 200
             (CDeleted "Club deleted successfully"
                (if isAdminDeleting then "admin" else "creator")),
           mkDb (delete id (clubs db)) users' (messages db), notified)
    end.

End ClubRoutes.

(** Members and joined clubs mirror each other: no member list has a
    duplicate, and a user with a document is in a club's member list exactly
    when the club is in the user's list of joined clubs. *)
Definition consistent (db : Db) : Prop :=
  ∀ clubId club, clubs db !! clubId = Some club →
    NoDup (Club.members club) ∧
    ∀ userId user, users db !! userId = Some user →
      (userId ∈ Club.members club ↔ clubId ∈ User.joinedClubs user).

(** ** Traces of socket events *)

Inductive SocketEvent :=
| Connect (sid : string)
| JoinRoom (sid : string) (clubId userId : option string)
| Disconnect (sid : string).

Definition handleEvent (srv : Server) (ev : SocketEvent) : Server :=
  match ev with
  | Connect sid => connection sid srv
  | JoinRoom sid clubId userId => (joinRoom sid clubId userId srv).1
  | Disconnect sid => (disconnect sid srv).1
  end.

Definition run (evs : list SocketEvent) (srv : Server) : Server :=
  foldl handleEvent srv evs.

(** What the online registry keeps: one entry per club, no user twice in a
    set, no empty club or user id. *)
Definition wellFormed (srv : Server) : Prop :=
  NoDup (onlineUsers srv).*1 ∧
  Forall (λ e, e.1 ≠ "" ∧ NoDup e.2 ∧ Forall (λ u, u ≠ "") e.2) (onlineUsers srv).

(** ** Basic facts *)

Lemma TIME_LIMIT_MS_five_minutes : TIME_LIMIT_MS = 300000%Z.
Proof. reflexivity. Qed.

Lemma serializeMessage_id doc : serializeMessage doc = doc.
Proof. by destruct doc. Qed.

Lemma serializeMessage_fmap (l : list Message.t) : serializeMessage <$> l = l.
Proof.
  induction l as [|m l IH]; [done|].
  by rewrite fmap_cons, serializeMessage_id, IH.
Qed.

Lemma toStringId_fmap (l : list string) : toStringId <$> l = l.
Proof. apply list_fmap_id. Qed.

Lemma includes_true l x : includes (toStringId <$> l) x = true ↔ x ∈ l.
Proof. unfold includes. rewrite toStringId_fmap. apply bool_decide_eq_true. Qed.

Lemma includes_false l x : includes (toStringId <$> l) x = false ↔ x ∉ l.
Proof. unfold includes. rewrite toStringId_fmap. apply bool_decide_eq_false. Qed.

Global Instance byTimestamp_trans : Transitive byTimestamp.
Proof. unfold byTimestamp. intros a b c. lia. Qed.

Global Instance byTimestamp_total : Total byTimestamp.
Proof. unfold byTimestamp. intros a b. lia. Qed.

Lemma elem_of_clubMessages clubId db m :
  m ∈ clubMessages clubId db ↔
  ∃ k, messages db !! k = Some m ∧ Message.clubId m = clubId.
Proof.
  unfold clubMessages. rewrite list_elem_of_filter, list_elem_of_fmap. split.
  - intros [Hc [[k m'] [-> Hin]]]. exists k. split; [|done].
    by apply elem_of_map_to_list in Hin.
  - intros [k [Hk Hc]]. split; [done|]. exists (k, m). split; [done|].
    by apply elem_of_map_to_list.
Qed.

(** The documents that [Message.find({ clubId })] yields are the stored
    documents that carry the club id, each once. *)
Lemma clubMessages_stored clubId db :
  clubMessages clubId db ≡ₚ
    (map_to_list (filter (λ kv : string * Message.t, Message.clubId kv.2 = clubId)
                    (messages db))).*2.
Proof.
  unfold clubMessages. generalize (messages db). intros ms.
  induction ms as [|k m ms Hk IH] using map_ind.
  - by rewrite map_filter_empty, !map_to_list_empty.
  - rewrite (map_to_list_insert ms k m Hk). rewrite fmap_cons. simpl snd.
    destruct (decide (Message.clubId m = clubId)) as [Hc|Hc].
    + rewrite filter_cons_True by done.
      rewrite map_filter_insert_True by done.
      rewrite map_to_list_insert; [by rewrite fmap_cons, IH|].
      apply map_lookup_filter_None. by left.
    + rewrite filter_cons_False by done.
      rewrite map_filter_insert_False by done.
      by rewrite (delete_id ms k Hk).
Qed.

Lemma findIndex_elem_of x (l : list string) :
  x ∈ l → ∃ i, findIndex x l = Some i ∧ l !! i = Some x.
Proof.
  induction l as [|y l IH]; [by intros ?%elem_of_nil|].
  intros Hin. simpl. unfold toStringId.
  destruct (decide (y = x)) as [->|Hne]; [by exists 0%nat|].
  apply elem_of_cons in Hin as [->|Hin]; [done|].
  destruct (IH Hin) as [i [Hi Hl]]. exists (S i). by rewrite Hi.
Qed.

Lemma limitOf_le_500 L : (limitOf L ≤ 500)%nat.
Proof.
  destruct L as [| |z]; simpl; try lia.
  destruct (0 <? z)%Z eqn:E; lia.
Qed.

(** ** The chat routes *)

Section RouteProperties.

Variable isValidObjectId : string → bool.
Variable castObjectId : string → string.

(** Unfolds a handler along the checks that the hypotheses settle. *)
Ltac settle :=
  repeat match goal with
  | H : ?x = _ |- context [?x] => rewrite H
  end; simpl.

(** C6: a stored message [m] of an existing club [c] is deleted exactly when
    the requester is an administrator, or the creator of [c], or the author
    of [m] within five minutes of sending; creator and administrator are
    not subject to the window; every refusal is a 403 that leaves the store
    as it was, and a success removes the document. *)
Theorem deleteMessage_permission u id now db m c :
  isValidObjectId id = true →
  messages db !! id = Some m →
  clubs db !! Message.clubId m = Some c →
  (succeeded (deleteMessage isValidObjectId u id now db).1 ↔
     req_isAdmin u = true ∨ req_id u = Club.createdBy c ∨
     (req_id u = Message.user m ∧ (now - Message.timestamp m ≤ 5 * 60 * 1000)%Z)) ∧
  (succeeded (deleteMessage isValidObjectId u id now db).1 →
     (deleteMessage isValidObjectId u id now db).2 =
       mkDb (clubs db) (users db) (delete id (messages db))) ∧
  (¬ succeeded (deleteMessage isValidObjectId u id now db).1 →
     PermissionError (deleteMessage isValidObjectId u id now db).1 ∧
     (deleteMessage isValidObjectId u id now db).2 = db).
Proof.
  intros Hid Hm Hc. unfold deleteMessage. settle.
  unfold toStringId, TIME_LIMIT_MS, succeeded, PermissionError.
  destruct (req_isAdmin u) eqn:Ha; simpl.
  { split_and!; [ | done | intros []; by left ]. split; auto. }
  destruct (bool_decide (Club.createdBy c = req_id u)) eqn:Hcr; simpl.
  { apply bool_decide_eq_true in Hcr.
    split_and!; [ | done | intros []; by left ]. split; auto. }
  apply bool_decide_eq_false in Hcr.
  destruct (bool_decide (Message.user m = req_id u)) eqn:Ho; simpl.
  - apply bool_decide_eq_true in Ho.
    destruct (now - Message.timestamp m <=? 5 * 60 * 1000)%Z eqn:Hw; simpl.
    + apply Z.leb_le in Hw.
      split_and!; [ | done | intros []; by left ]. split; auto.
    + apply Z.leb_gt in Hw. split_and!; [ | intros [|]; done | done ].
      split; [intros [|]; done|]. intros [|[|[_ ?]]]; [done|congruence|lia].
  - apply bool_decide_eq_false in Ho.
    split_and!; [ | intros [|]; done | done ].
    split; [intros [|]; done|]. intros [|[|[? _]]]; [done|congruence|congruence].
Qed.

(** C10: on an existing club, a requester who is not in the member list
    gets a 403 from the listing route, with an error body instead of
    messages, and the store is left as it was. *)
Theorem listMessages_requires_membership u clubId limitParam db c :
  isValidObjectId clubId = true →
  clubs db !! clubId = Some c →
  req_id u ∉ Club.members c →
  PermissionError (listMessages isValidObjectId u clubId limitParam db).1 ∧
  body (listMessages isValidObjectId u clubId limitParam db).1 =
    ErrorJson "You must be a member of this club to view messages." ∧
  (listMessages isValidObjectId u clubId limitParam db).2 = db.
Proof.
  intros Hid Hc Hmem. unfold listMessages. settle.
  apply includes_false in Hmem. by rewrite Hmem.
Qed.

(** C8: on an existing club the listing route answers 200 exactly when the
    requester is a member, and the answer then carries the club's messages
    in ascending [timestamp] order, cut after the first [limitOf L] of
    them: the answer, followed by the messages left out, holds exactly the
    stored documents that carry the club id, each once, and no message left
    out is older than one that is returned.  The cap is [min L 500] for a
    positive finite [L] and 200 for anything else. *)
Theorem listMessages_sorted_capped u clubId L db c :
  isValidObjectId clubId = true →
  clubs db !! clubId = Some c →
  (succeeded (listMessages isValidObjectId u clubId L db).1 ↔
     req_id u ∈ Club.members c) ∧
  (succeeded (listMessages isValidObjectId u clubId L db).1 →
   ∃ l rest,
     listMessages isValidObjectId u clubId L db = (mkResponse 200 (Docs l), db) ∧
     StronglySorted byTimestamp l ∧
     (l ++ rest)%list ≡ₚ
       (map_to_list (filter (λ kv : string * Message.t, Message.clubId kv.2 = clubId)
                       (messages db))).*2 ∧
     (∀ m, m ∈ (l ++ rest)%list ↔
           ∃ k, messages db !! k = Some m ∧ Message.clubId m = clubId) ∧
     (∀ a b, a ∈ l → b ∈ rest → byTimestamp a b) ∧
     length l =
       (limitOf L `min`
        size (filter (λ kv : string * Message.t, Message.clubId kv.2 = clubId)
                (messages db)))%nat) ∧
  (∀ z, L = Finite z → (0 < z)%Z → Z.of_nat (limitOf L) = Z.min z 500) ∧
  ((∀ z, L = Finite z → (z ≤ 0)%Z) → limitOf L = 200%nat).
Proof.
  intros Hid Hc.
  assert (Hiff : succeeded (listMessages isValidObjectId u clubId L db).1 ↔
                 req_id u ∈ Club.members c).
  { unfold listMessages, succeeded. settle.
    destruct (includes _ _) eqn:Hinc; simpl.
    - apply includes_true in Hinc. split; [done|by left].
    - apply includes_false in Hinc. split; [by intros [|]|done]. }
  split_and!; [done| | |].
  - intros Hmem%Hiff. unfold listMessages. settle.
    apply includes_true in Hmem. rewrite Hmem. simpl.
    rewrite serializeMessage_fmap. unfold findByClub.
    set (sorted := merge_sort byTimestamp (clubMessages clubId db)).
    assert (Hs : StronglySorted byTimestamp sorted)
      by apply (StronglySorted_merge_sort byTimestamp).
    assert (Hp : sorted ≡ₚ clubMessages clubId db)
      by apply (merge_sort_Permutation byTimestamp).
    exists (take (limitOf L) sorted), (drop (limitOf L) sorted).
    rewrite <- (take_drop (limitOf L) sorted) in Hs.
    split_and!.
    + done.
    + by apply StronglySorted_app_1_l in Hs.
    + by rewrite take_drop, Hp, clubMessages_stored.
    + intros m. rewrite take_drop, Hp. apply elem_of_clubMessages.
    + intros a b Ha Hb. by eapply StronglySorted_app_1_elem_of.
    + rewrite length_take, Hp, clubMessages_stored, length_fmap.
      by rewrite length_map_to_list.
  - intros z -> Hz. simpl. apply Z.ltb_lt in Hz. rewrite Hz. lia.
  - intros HL. destruct L as [| |z]; [done|done|]. simpl.
    specialize (HL z eq_refl). by destruct (0 <? z)%Z eqn:E; [apply Z.ltb_lt in E; lia|].
Qed.

(** Every refusal of the send, list, edit and delete routes leaves the
    store exactly as it was: each check comes before the one write. *)
Lemma sendMessage_refused_unchanged u message clubId now newId db :
  ¬ succeeded (sendMessage isValidObjectId u message clubId now newId db).1 →
  (sendMessage isValidObjectId u message clubId now newId db).2 = db.
Proof.
  unfold sendMessage, succeeded. repeat case_match; simpl; try done.
  intros Hno. exfalso. apply Hno. by right.
Qed.

Lemma listMessages_unchanged u clubId L db :
  (listMessages isValidObjectId u clubId L db).2 = db.
Proof. unfold listMessages. by repeat case_match. Qed.

Lemma editMessage_refused_unchanged u id message now db :
  ¬ succeeded (editMessage isValidObjectId u id message now db).1 →
  (editMessage isValidObjectId u id message now db).2 = db.
Proof.
  unfold editMessage, succeeded. repeat case_match; simpl; try done.
  intros Hno. exfalso. apply Hno. by left.
Qed.

Lemma deleteMessage_refused_unchanged u id now db :
  ¬ succeeded (deleteMessage isValidObjectId u id now db).1 →
  (deleteMessage isValidObjectId u id now db).2 = db.
Proof.
  unfold deleteMessage, succeeded. repeat case_match; simpl; try done.
  intros Hno. exfalso. apply Hno. by left.
Qed.

Lemma clubs_removeMember_refused_unchanged u clubId userId db :
  ¬ succeeded (clubs_removeMember isValidObjectId u clubId userId db).1 →
  (clubs_removeMember isValidObjectId u clubId userId db).2 = db.
Proof.
  unfold clubs_removeMember, succeeded. repeat case_match; simpl; try done.
  intros Hno. exfalso. apply Hno. by left.
Qed.

(** The remove-member route of messages.js refuses without a write, except
    when the member's user document is missing: that 404 comes after the
    club has been saved without the member. *)
Lemma removeMember_refused u clubId userId db :
  ¬ succeeded (removeMember isValidObjectId castObjectId u clubId userId db).1 →
  (removeMember isValidObjectId castObjectId u clubId userId db).2 = db ∨
  (body (removeMember isValidObjectId castObjectId u clubId userId db).1 =
     ErrorJson "User not found." ∧
   users db !! castObjectId userId = None ∧
   ∃ c i, clubs db !! castObjectId clubId = Some c ∧
     findIndex userId (Club.members c) = Some i ∧
     (removeMember isValidObjectId castObjectId u clubId userId db).2 =
       mkDb (<[castObjectId clubId := Club.mk (Club._id c) (Club.createdBy c)
                                        (delete i (Club.members c))]> (clubs db))
            (users db) (messages db)).
Proof.
  unfold removeMember, succeeded. repeat case_match; simpl in *; try (by left).
  - intros Hno. exfalso. apply Hno. by left.
  - intros _. right. split_and!; [done|done|]. eauto.
Qed.

(** The club creator cannot leave: [leaveClub] answers 400 and writes
    nothing. *)
Lemma leaveClub_creator u clubId db c :
  clubs db !! clubId = Some c →
  req_id u = Club.createdBy c →
  ValidationError (leaveClub isValidObjectId u clubId db).1 ∧
  (leaveClub isValidObjectId u clubId db).2 = db.
Proof.
  intros Hc Hu. unfold leaveClub, ValidationError.
  destruct (_ || _); [done|]. rewrite Hc. unfold toStringId.
  by rewrite bool_decide_eq_true_2.
Qed.

(** C7, as amended: a user who is not in the member list of an existing
    club cannot send: the call is refused and the store, hence the club's
    message count, is as before.  The refusal is a 403 when the text is not
    blank; a blank text is refused with a 400 before membership is looked
    at. *)
Theorem sendMessage_requires_membership u message clubId now newId db c :
  isValidObjectId clubId = true →
  clubs db !! clubId = Some c →
  req_id u ∉ Club.members c →
  ¬ succeeded (sendMessage isValidObjectId u message clubId now newId db).1 ∧
  (sendMessage isValidObjectId u message clubId now newId db).2 = db ∧
  length (clubMessages clubId
            (sendMessage isValidObjectId u message clubId now newId db).2) =
    length (clubMessages clubId db) ∧
  (trimmed message ≠ "" →
     PermissionError (sendMessage isValidObjectId u message clubId now newId db).1) ∧
  (trimmed message = "" →
     ValidationError (sendMessage isValidObjectId u message clubId now newId db).1).
Proof.
  intros Hid Hc Hmem. apply includes_false in Hmem.
  unfold sendMessage, succeeded, PermissionError, ValidationError.
  destruct (decide (trimmed message = "")) as [Hb|Hb]; simpl.
  { split_and!; try done. by intros [|]. }
  settle. split_and!; try done. by intros [|].
Qed.

(** C5, as amended: for a text that is not blank, the edit of a stored
    message succeeds exactly when the requester is its author and at most
    five minutes have passed since it was sent; once the window has passed
    the edit is refused with a 403 whoever asks, administrator or creator
    included, and every refusal is a 403 that leaves the store as it was.
    A blank text is refused with a 400 before the message is looked up:
    whatever the identifier, the requester, the time and the store. *)
Theorem editMessage_permission u id message now db :
  (trimmed message = "" →
     editMessage isValidObjectId u id message now db =
       (mkResponse 400 (ErrorJson "Message text is required."), db) ∧
     ValidationError (editMessage isValidObjectId u id message now db).1) ∧
  (∀ m,
     isValidObjectId id = true →
     messages db !! id = Some m →
     trimmed message ≠ "" →
     (succeeded (editMessage isValidObjectId u id message now db).1 ↔
        req_id u = Message.user m ∧ (now - Message.timestamp m ≤ 5 * 60 * 1000)%Z) ∧
     ((5 * 60 * 1000 < now - Message.timestamp m)%Z →
        PermissionError (editMessage isValidObjectId u id message now db).1) ∧
     (¬ succeeded (editMessage isValidObjectId u id message now db).1 →
        PermissionError (editMessage isValidObjectId u id message now db).1 ∧
        (editMessage isValidObjectId u id message now db).2 = db)).
Proof.
  split.
  { intros Hb. unfold editMessage, ValidationError. by rewrite decide_True. }
  intros m Hid Hm Hb. unfold editMessage, succeeded, PermissionError.
  destruct (decide (trimmed message = "")) as [|_]; [done|]. settle.
  unfold toStringId, TIME_LIMIT_MS.
  destruct (bool_decide (Message.user m = req_id u)) eqn:Ho; simpl.
  - apply bool_decide_eq_true in Ho.
    destruct (5 * 60 * 1000 <? now - Message.timestamp m)%Z eqn:Hw; simpl.
    + apply Z.ltb_lt in Hw. split_and!; [|done|done].
      split; [by intros [|]|]. intros [_ ?]. lia.
    + apply Z.ltb_ge in Hw. split_and!.
      * split; [|by left]. intros _. split; [done|lia].
      * lia.
      * intros Hno. exfalso. apply Hno. by left.
  - apply bool_decide_eq_false in Ho. split_and!; [|done|done].
    split; [by intros [|]|]. intros [? _]. congruence.
Qed.

(** C4, as amended: a successful edit rewrites the stored document under
    the same key with the trimmed text as its only change: identifier,
    club, author, author name, avatar and [timestamp] are those of the
    message before the edit, no other message changes, and clubs and users
    are untouched. *)
Theorem editMessage_frame u id message now db :
  succeeded (editMessage isValidObjectId u id message now db).1 →
  ∃ m m',
    messages db !! id = Some m ∧
    (editMessage isValidObjectId u id message now db).1 = mkResponse 200 (Doc m') ∧
    (editMessage isValidObjectId u id message now db).2 =
      mkDb (clubs db) (users db) (<[id := m']> (messages db)) ∧
    m' = Message.mk (Message._id m) (Message.user m) (Message.username m)
           (Message.avatar m) (trimmed message) (Message.clubId m)
           (Message.timestamp m).
Proof.
  unfold editMessage, succeeded.
  repeat case_match; simpl; try (intros [|]; done).
  intros _. eexists _, _. by split_and!.
Qed.

(** C1, as amended: the remove-member routes refuse, with a 403 and no
    write, a requester who is neither the creator of the club nor an
    administrator; they have no check of their own for the creator as the
    target, so an administrator other than the creator removes the creator
    from the member list.  The club id is the one the club is stored under. *)
Theorem removeMember_creator u clubId db c :
  isValidObjectId clubId = true →
  isValidObjectId (Club.createdBy c) = true →
  castObjectId clubId = clubId →
  clubs db !! clubId = Some c →
  req_id u ≠ Club.createdBy c →
  (req_isAdmin u = false →
     PermissionError (clubs_removeMember isValidObjectId u clubId (Club.createdBy c) db).1 ∧
     (clubs_removeMember isValidObjectId u clubId (Club.createdBy c) db).2 = db ∧
     PermissionError
       (removeMember isValidObjectId castObjectId u clubId (Club.createdBy c) db).1 ∧
     (removeMember isValidObjectId castObjectId u clubId (Club.createdBy c) db).2 = db) ∧
  (req_isAdmin u = true → Club.createdBy c ∈ Club.members c →
     succeeded (clubs_removeMember isValidObjectId u clubId (Club.createdBy c) db).1 ∧
     ∃ c', clubs (clubs_removeMember isValidObjectId u clubId (Club.createdBy c) db).2
             !! clubId = Some c' ∧
           Club.createdBy c ∉ Club.members c') ∧
  (req_isAdmin u = true → Club.createdBy c ∈ Club.members c →
   is_Some (users db !! castObjectId (Club.createdBy c)) →
     succeeded
       (removeMember isValidObjectId castObjectId u clubId (Club.createdBy c) db).1 ∧
     ∃ c' i,
       clubs (removeMember isValidObjectId castObjectId u clubId (Club.createdBy c) db).2
         !! clubId = Some c' ∧
       findIndex (Club.createdBy c) (Club.members c) = Some i ∧
       Club.members c !! i = Some (Club.createdBy c) ∧
       Club.members c' = delete i (Club.members c)).
Proof.
  intros Hid Hcr Hcast Hc Hne.
  unfold clubs_removeMember, removeMember, PermissionError, succeeded.
  rewrite Hid, Hcr, Hcast, Hc. simpl. unfold toStringId.
  rewrite (bool_decide_eq_false_2 _ (not_eq_sym Hne)). simpl.
  split_and!.
  - intros ->. done.
  - intros -> Hin.
    rewrite bool_decide_eq_true_2 by (apply Exists_exists; eauto).
    simpl. split; [by left|]. eexists. split; [apply lookup_insert_eq|].
    simpl. rewrite list_elem_of_filter. tauto.
  - intros -> Hin [member Hmember]. simpl.
    destruct (findIndex_elem_of _ _ Hin) as [i [Hi Hl]]. rewrite Hi. simpl.
    rewrite Hmember. simpl. split; [by left|].
    exists (Club.mk (Club._id c) (Club.createdBy c) (delete i (Club.members c))), i.
    split_and!; try done. apply lookup_insert_eq.
Qed.

End RouteProperties.

(** ** Presence *)

Section PresenceProperties.

Implicit Types (us : list string) (m : list (string * list string)).

Lemma filter_absent x us : x ∉ us → filter (λ y, y ≠ x) us = us.
Proof.
  induction us as [|y us IH]; [done|]. intros Hx.
  apply not_elem_of_cons in Hx as [Hne Hx].
  rewrite filter_cons_True by done. by rewrite IH.
Qed.

Lemma Set_add_elem_of x us : x ∈ Set_add x us.
Proof.
  unfold Set_add, Set_has. case_bool_decide; [done|].
  apply elem_of_app. right. by apply list_elem_of_singleton.
Qed.

Lemma Set_add_idemp x us : Set_add x (Set_add x us) = Set_add x us.
Proof.
  unfold Set_add at 1. unfold Set_has.
  by rewrite bool_decide_eq_true_2 by apply Set_add_elem_of.
Qed.

Lemma Set_add_NoDup x us : NoDup us → NoDup (Set_add x us).
Proof.
  intros Hs. unfold Set_add, Set_has. case_bool_decide; [done|].
  apply NoDup_app. split_and!; [done| |apply NoDup_singleton].
  intros y Hy ->%list_elem_of_singleton. done.
Qed.

Lemma Map_get_set_eq {V} k (v : V) (m : list (string * V)) :
  Map_get k (Map_set k v m) = Some v.
Proof.
  induction m as [|[k' v'] m IH]; simpl.
  - by rewrite decide_True.
  - destruct (decide (k' = k)) as [->|Hne]; simpl.
    + by rewrite decide_True.
    + by rewrite decide_False.
Qed.

Lemma Map_get_set_ne {V} k k' (v : V) (m : list (string * V)) :
  k ≠ k' → Map_get k' (Map_set k v m) = Map_get k' m.
Proof.
  intros Hne. induction m as [|[k0 v0] m IH]; simpl.
  - by rewrite decide_False.
  - destruct (decide (k0 = k)) as [->|Hk]; simpl.
    + by rewrite !decide_False.
    + by rewrite IH.
Qed.

Lemma Map_set_set {V} k (v v' : V) (m : list (string * V)) :
  Map_set k v (Map_set k v' m) = Map_set k v m.
Proof.
  induction m as [|[k0 v0] m IH]; simpl.
  - by rewrite decide_True.
  - destruct (decide (k0 = k)) as [->|Hk]; simpl.
    + by rewrite decide_True.
    + by rewrite decide_False, IH.
Qed.

(** [joinRoom] with both ids present, on a connected socket. *)
Lemma joinRoom_connected sid c u srv socket :
  c ≠ "" → u ≠ "" → sockets srv !! sid = Some socket →
  joinRoom sid (Some c) (Some u) srv =
    (mkServer (Map_set c (Set_add u (online c srv)) (onlineUsers srv))
              (<[sid := mkSocket (Some u) (Set_add c (rooms socket))]> (sockets srv)),
     [mkEmit c "onlineUsers" (Set_add u (online c srv));
      mkEmit c "updateOnlineUsers" (Set_add u (online c srv))]).
Proof.
  intros Hc Hu Hs. unfold joinRoom, truthy, online.
  rewrite !decide_False by done. rewrite Hs. unfold Map_has.
  case_bool_decide as Hhas.
  - done.
  - rewrite Map_get_set_eq, Map_set_set. simpl.
    destruct (Map_get c (onlineUsers srv)) eqn:E; [|done].
    exfalso. apply Hhas. by eexists.
Qed.

Lemma joinRoom_ignored sid clubId userId srv :
  truthy userId = None ∨ truthy clubId = None ∨ sockets srv !! sid = None →
  joinRoom sid clubId userId srv = (srv, []).
Proof.
  unfold joinRoom. intros [->|[H|H]]; [done| |].
  - rewrite H. by destruct (truthy userId).
  - rewrite H. by destruct (truthy userId), (truthy clubId).
Qed.

Lemma truthy_Some v x : truthy v = Some x → v = Some x ∧ x ≠ "".
Proof. unfold truthy. destruct v; [|done]. case_decide; naive_solver. Qed.

Lemma online_joinRoom sid c u srv socket c' :
  c ≠ "" → u ≠ "" → sockets srv !! sid = Some socket →
  online c' (joinRoom sid (Some c) (Some u) srv).1 =
    if decide (c = c') then Set_add u (online c srv) else online c' srv.
Proof.
  intros Hc Hu Hs. rewrite (joinRoom_connected _ _ _ _ _ Hc Hu Hs).
  unfold online at 1. simpl. case_decide as E.
  - subst. by rewrite Map_get_set_eq.
  - by rewrite Map_get_set_ne.
Qed.

(** The loop of [disconnect] filters the user out of every set, and reports
    a change exactly for the sets that held the user. *)
Lemma sweep_Some u entries :
  (sweep (Some u) entries).1 = (λ e, (e.1, filter (λ y, y ≠ u) e.2)) <$> entries.
Proof.
  induction entries as [|[c us] rest IH]; [done|].
  simpl. destruct (sweep (Some u) rest) as [rest' emits]. simpl in IH.
  unfold Set_has. case_bool_decide as Hin; simpl; f_equal; try done.
  f_equal. symmetry. by apply filter_absent.
Qed.

Lemma sweep_None entries : sweep None entries = (entries, []).
Proof.
  induction entries as [|[c us] rest IH]; [done|]. simpl. by rewrite IH.
Qed.

Lemma sweep_absent u entries :
  Forall (λ e, u ∉ e.2) entries → sweep (Some u) entries = (entries, []).
Proof.
  induction 1 as [|[c us] rest Hu _ IH]; [done|]. simpl in *. rewrite IH.
  unfold Set_has. by rewrite bool_decide_eq_false_2.
Qed.

Lemma Map_get_fmap (f : list string → list string) k m :
  Map_get k ((λ e, (e.1, f e.2)) <$> m) = f <$> Map_get k m.
Proof.
  induction m as [|[k' v] m IH]; [done|]. simpl.
  by destruct (decide (k' = k)).
Qed.

Lemma disconnect_connected sid srv socket u :
  sockets srv !! sid = Some socket → userId socket = Some u →
  (disconnect sid srv).1 =
    mkServer ((λ e, (e.1, filter (λ y, y ≠ u) e.2)) <$> onlineUsers srv)
             (delete sid (sockets srv)).
Proof.
  intros Hs Hu. unfold disconnect. rewrite Hs, Hu.
  pose proof (sweep_Some u (onlineUsers srv)) as Hsw.
  destruct (sweep (Some u) (onlineUsers srv)) as [online' emits].
  simpl in *. by subst online'.
Qed.

Lemma disconnect_absent sid srv socket u :
  sockets srv !! sid = Some socket → userId socket = Some u →
  Forall (λ e, u ∉ e.2) (onlineUsers srv) →
  disconnect sid srv = (mkServer (onlineUsers srv) (delete sid (sockets srv)), []).
Proof.
  intros Hs Hu Habs. unfold disconnect. rewrite Hs, Hu.
  by rewrite sweep_absent.
Qed.

Lemma online_disconnect sid srv socket u c :
  sockets srv !! sid = Some socket → userId socket = Some u →
  online c (disconnect sid srv).1 = filter (λ y, y ≠ u) (online c srv).
Proof.
  intros Hs Hu. rewrite (disconnect_connected _ _ _ _ Hs Hu).
  unfold online. simpl.
  rewrite Map_get_fmap. by destruct (Map_get c (onlineUsers srv)).
Qed.

Ltac ignored :=
  match goal with
  | |- context [joinRoom ?sid ?c ?u ?srv] =>
      rewrite !(joinRoom_ignored sid c u srv) by auto; simpl;
      by rewrite ?(joinRoom_ignored sid c u srv) by auto
  end.

(** C9: a second [joinRoom] with the same club, user and socket changes
    nothing: the server state, and with it the online set of every club, is
    the one the first [joinRoom] left; a set without duplicates stays
    without duplicates. *)
Theorem joinRoom_idempotent sid clubId userId srv :
  (joinRoom sid clubId userId (joinRoom sid clubId userId srv).1).1 =
    (joinRoom sid clubId userId srv).1 ∧
  (∀ c, online c (joinRoom sid clubId userId (joinRoom sid clubId userId srv).1).1 =
        online c (joinRoom sid clubId userId srv).1) ∧
  (∀ c, NoDup (online c srv) →
        NoDup (online c (joinRoom sid clubId userId (joinRoom sid clubId userId srv).1).1)).
Proof.
  assert (Hstate : (joinRoom sid clubId userId (joinRoom sid clubId userId srv).1).1 =
                   (joinRoom sid clubId userId srv).1).
  { destruct (truthy userId) as [u|] eqn:Eu;
      [|ignored].
    destruct (truthy clubId) as [c|] eqn:Ec;
      [|ignored].
    destruct (sockets srv !! sid) as [socket|] eqn:Es;
      [|ignored].
    apply truthy_Some in Eu as [-> Hu]. apply truthy_Some in Ec as [-> Hc].
    rewrite (joinRoom_connected _ _ _ _ _ Hc Hu Es). simpl.
    erewrite joinRoom_connected; [|done|done|by apply lookup_insert_eq]. simpl.
    unfold online at 1. simpl.
    rewrite Map_get_set_eq, Map_set_set, insert_insert_eq. simpl.
    by rewrite !Set_add_idemp. }
  split_and!; [done|by rewrite Hstate|]. rewrite Hstate. intros c Hnd.
  destruct (truthy userId) as [u|] eqn:Eu;
    [|ignored].
  destruct (truthy clubId) as [c0|] eqn:Ec;
    [|ignored].
  destruct (sockets srv !! sid) as [socket|] eqn:Es;
    [|ignored].
  apply truthy_Some in Eu as [-> Hu]. apply truthy_Some in Ec as [-> Hc].
  rewrite (online_joinRoom _ _ _ _ _ _ Hc Hu Es). case_decide; [|done].
  subst. by apply Set_add_NoDup.
Qed.

(** C2, as amended: the online set is keyed by user id alone, with no count
    of connections.  When two connected sockets have joined club [c] for
    the same user [u], the disconnect of one of them takes [u] out of the
    online set of [c] although the other is still connected; the later
    disconnect of the other finds nothing to remove and emits nothing. *)
Theorem disconnect_evicts_user srv s1 s2 c u :
  s1 ≠ s2 →
  is_Some (sockets srv !! s1) →
  is_Some (sockets srv !! s2) →
  c ≠ "" → u ≠ "" →
  u ∈ online c (joinBoth s1 s2 c u srv) ∧
  is_Some (sockets (disconnect s1 (joinBoth s1 s2 c u srv)).1 !! s2) ∧
  (u ∉ online c (disconnect s1 (joinBoth s1 s2 c u srv)).1) ∧
  onlineUsers (disconnect s2 (disconnect s1 (joinBoth s1 s2 c u srv)).1).1 =
    onlineUsers (disconnect s1 (joinBoth s1 s2 c u srv)).1 ∧
  (disconnect s2 (disconnect s1 (joinBoth s1 s2 c u srv)).1).2 = [].
Proof.
  intros Hne [sock1 H1] [sock2 H2] Hc Hu. unfold joinBoth.
  rewrite (joinRoom_connected _ _ _ _ _ Hc Hu H1). simpl.
  erewrite joinRoom_connected;
    [|done|done|simpl; rewrite lookup_insert_ne by done; exact H2]. simpl.
  set (srv2 := mkServer _ _).
  assert (Hs1 : sockets srv2 !! s1 =
                Some (mkSocket (Some u) (Set_add c (rooms sock1)))).
  { subst srv2. simpl. rewrite lookup_insert_ne by done. apply lookup_insert_eq. }
  assert (Hs2 : sockets srv2 !! s2 =
                Some (mkSocket (Some u) (Set_add c (rooms sock2)))).
  { subst srv2. simpl. apply lookup_insert_eq. }
  assert (Hin : u ∈ online c srv2).
  { subst srv2. unfold online at 1. simpl. rewrite Map_get_set_eq. simpl.
    apply Set_add_elem_of. }
  pose proof (disconnect_connected _ _ _ _ Hs1 eq_refl) as Hd.
  assert (Hs3 : sockets (disconnect s1 srv2).1 !! s2 =
                Some (mkSocket (Some u) (Set_add c (rooms sock2)))).
  { rewrite Hd. simpl. by rewrite lookup_delete_ne by done. }
  assert (Habs : Forall (λ e, u ∉ e.2) (onlineUsers (disconnect s1 srv2).1)).
  { rewrite Hd. simpl. apply Forall_fmap, Forall_forall. intros e _. simpl.
    rewrite list_elem_of_filter. tauto. }
  split_and!.
  - done.
  - by rewrite Hs3.
  - rewrite (online_disconnect _ _ _ u c Hs1 eq_refl).
    rewrite list_elem_of_filter. tauto.
  - by rewrite (disconnect_absent _ _ _ _ Hs3 eq_refl Habs).
  - by rewrite (disconnect_absent _ _ _ _ Hs3 eq_refl Habs).
Qed.

End PresenceProperties.

(** ** The routes and handlers on the fixtures *)

(** The scenarios of the specification.  [uA] sends "first" and then "second"
    to [cA]; the listing shows [m1], sent earlier by [uB], and then the two
    in send order. *)
Example scenario_send_then_list :
  let db1 := (sendMessage hex24 (mkReqUser uA false) (Some " first ") cA 2000 m2 db0).2 in
  let db2 := (sendMessage hex24 (mkReqUser uA false) (Some "second") cA 3000 uD db1).2 in
  Message.message <$> findByClub cA 10 db2 = ["hello"; "first"; "second"] ∧
  Message.message <$> findByClub cA 2 db2 = ["hello"; "first"].
Proof. split; by vm_compute. Qed.

(** The author edits two minutes after sending; six minutes after sending
    the edit is refused with a 403. *)
Example scenario_edit_window :
  (editMessage hex24 (mkReqUser uB false) m1 (Some "hello world") 121000 db0).1 =
    mkResponse 200 (Doc (Message.mk m1 uB "bob" "" "hello world" cA 1000)) ∧
  (editMessage hex24 (mkReqUser uB false) m1 (Some "hello world") 361001 db0).1 =
    mkResponse 403
      (ErrorJson "Messages can only be edited within five minutes of sending.").
Proof. split; by vm_compute. Qed.

(** Ten minutes after [uB] sent [m1], the creator [uA] and the administrator
    delete it; the author and a stranger are refused. *)
Example scenario_delete_late :
  status (deleteMessage hex24 (mkReqUser uA false) m1 601000 db0).1 = 200%nat ∧
  status (deleteMessage hex24 (mkReqUser uAdmin true) m1 601000 db0).1 = 200%nat ∧
  status (deleteMessage hex24 (mkReqUser uB false) m1 601000 db0).1 = 403%nat ∧
  status (deleteMessage hex24 (mkReqUser uC false) m1 601000 db0).1 = 403%nat.
Proof. split_and!; by vm_compute. Qed.

(** C1, the claim as stated fails: the administrator [uAdmin], who is not the
    creator, asks each remove-member route to remove [uA], the creator of
    [cA]; both answer 200 and [uA] is gone from the member list. *)
Lemma removeMember_creator_counterexample :
  Club.createdBy clubA = uA ∧
  succeeded (clubs_removeMember hex24 (mkReqUser uAdmin true) cA uA db0).1 ∧
  Club.members <$> clubs (clubs_removeMember hex24 (mkReqUser uAdmin true) cA uA db0).2 !! cA
    = Some [uB] ∧
  succeeded (removeMember hex24 lowerHex (mkReqUser uAdmin true) cA uA db0).1 ∧
  Club.members <$> clubs (removeMember hex24 lowerHex (mkReqUser uAdmin true) cA uA db0).2 !! cA
    = Some [uB].
Proof. split_and!; try (by vm_compute); left; by vm_compute. Qed.

Lemma removeMember_creator_witness :
  hex24 cA = true ∧ hex24 (Club.createdBy clubA) = true ∧ lowerHex cA = cA ∧
  clubs db0 !! cA = Some clubA ∧ uAdmin ≠ Club.createdBy clubA ∧
  succeeded (clubs_removeMember hex24 (mkReqUser uAdmin true) cA uA db0).1 ∧
  succeeded (removeMember hex24 lowerHex (mkReqUser uAdmin true) cA uA db0).1.
Proof.
  assert (H1 : hex24 cA = true) by reflexivity.
  assert (H2 : hex24 (Club.createdBy clubA) = true) by reflexivity.
  assert (H0 : lowerHex cA = cA) by reflexivity.
  assert (H3 : clubs db0 !! cA = Some clubA) by reflexivity.
  assert (H4 : req_id (mkReqUser uAdmin true) ≠ Club.createdBy clubA) by discriminate.
  assert (H5 : Club.createdBy clubA ∈ Club.members clubA) by apply list_elem_of_here.
  assert (H6 : is_Some (users db0 !! lowerHex (Club.createdBy clubA)))
    by (eexists; reflexivity).
  destruct (removeMember_creator hex24 lowerHex (mkReqUser uAdmin true) cA db0 clubA
              H1 H2 H0 H3 H4)
    as (_ & Hclubs & Hmessages).
  split_and!; [done|done|done|done|done| |].
  - exact (proj1 (Hclubs eq_refl H5)).
  - exact (proj1 (Hmessages eq_refl H5 H6)).
Defined.

(** C2, the claim as stated fails: tabs [tab1] and [tab2] both join club
    ["C2"] for user ["X"]; when [tab1] disconnects, [tab2] is still connected
    and in the room, yet ["X"] is no longer in the online set. *)
Lemma presence_two_tabs_counterexample :
  online "C2" (joinBoth "tab1" "tab2" "C2" "X" twoTabs) = ["X"] ∧
  rooms <$> sockets (disconnect "tab1" (joinBoth "tab1" "tab2" "C2" "X" twoTabs)).1 !! "tab2"
    = Some ["tab2"; "C2"] ∧
  online "C2" (disconnect "tab1" (joinBoth "tab1" "tab2" "C2" "X" twoTabs)).1 = [] ∧
  "X" ∉ online "C2" (disconnect "tab1" (joinBoth "tab1" "tab2" "C2" "X" twoTabs)).1.
Proof.
  split_and!; try (by vm_compute).
  assert (E : online "C2" (disconnect "tab1" (joinBoth "tab1" "tab2" "C2" "X" twoTabs)).1 = [])
    by (by vm_compute).
  rewrite E. apply not_elem_of_nil.
Qed.

Lemma disconnect_evicts_user_witness :
  "tab1" ≠ "tab2" ∧ is_Some (sockets twoTabs !! "tab1") ∧
  is_Some (sockets twoTabs !! "tab2") ∧ "C2" ≠ "" ∧ "X" ≠ "" ∧
  "X" ∈ online "C2" (joinBoth "tab1" "tab2" "C2" "X" twoTabs) ∧
  "X" ∉ online "C2" (disconnect "tab1" (joinBoth "tab1" "tab2" "C2" "X" twoTabs)).1.
Proof.
  assert (H1 : "tab1" ≠ "tab2") by discriminate.
  assert (H2 : is_Some (sockets twoTabs !! "tab1")) by (eexists; reflexivity).
  assert (H3 : is_Some (sockets twoTabs !! "tab2")) by (eexists; reflexivity).
  assert (H4 : "C2" ≠ "") by discriminate.
  assert (H5 : "X" ≠ "") by discriminate.
  destruct (disconnect_evicts_user twoTabs "tab1" "tab2" "C2" "X" H1 H2 H3 H4 H5)
    as (Hin & _ & Hout & _).
  by split_and!.
Defined.

(** C3, the write that comes before a check: the creator [uA] asks the
    remove-member route of messages.js to remove [uD], whose user document is
    missing.  The answer is 404 "User not found.", but the club has already
    been saved without [uD]. *)
Lemma removeMember_user_missing_partial_write :
  Club.members <$> clubs dbGone !! cA = Some [uA; uD] ∧
  (removeMember hex24 lowerHex (mkReqUser uA false) cA uD dbGone).1 =
    mkResponse 404 (ErrorJson "User not found.") ∧
  Club.members <$> clubs (removeMember hex24 lowerHex (mkReqUser uA false) cA uD dbGone).2 !! cA
    = Some [uA] ∧
  (removeMember hex24 lowerHex (mkReqUser uA false) cA uD dbGone).2 ≠ dbGone.
Proof.
  split_and!; by vm_compute.
Qed.

(** C4, the claim as stated fails: [uB] edits [m1], sent at time 1000, at
    time 61000; the edit succeeds and the stored [timestamp] is still 1000,
    not the time of the edit. *)
Lemma editMessage_timestamp_counterexample :
  succeeded (editMessage hex24 (mkReqUser uB false) m1 (Some "hello world") 61000 db0).1 ∧
  messages (editMessage hex24 (mkReqUser uB false) m1 (Some "hello world") 61000 db0).2 !! m1
    = Some (Message.mk m1 uB "bob" "" "hello world" cA 1000) ∧
  Message.timestamp message1 = 1000%Z ∧ (1000 ≠ 61000)%Z.
Proof. split_and!; try (by vm_compute); left; by vm_compute. Qed.

Lemma editMessage_frame_witness :
  succeeded (editMessage hex24 (mkReqUser uB false) m1 (Some "hello world") 61000 db0).1 ∧
  ∃ m m',
    messages db0 !! m1 = Some m ∧
    (editMessage hex24 (mkReqUser uB false) m1 (Some "hello world") 61000 db0).1 =
      mkResponse 200 (Doc m') ∧
    (editMessage hex24 (mkReqUser uB false) m1 (Some "hello world") 61000 db0).2 =
      mkDb (clubs db0) (users db0) (<[m1 := m']> (messages db0)) ∧
    m' = Message.mk (Message._id m) (Message.user m) (Message.username m)
           (Message.avatar m) (trimmed (Some "hello world")) (Message.clubId m)
           (Message.timestamp m).
Proof.
  assert (H1 : succeeded
                 (editMessage hex24 (mkReqUser uB false) m1 (Some "hello world") 61000 db0).1)
    by (left; reflexivity).
  split; [done|].
  exact (editMessage_frame hex24 (mkReqUser uB false) m1 (Some "hello world") 61000 db0 H1).
Defined.

(** C5, the claim as stated fails: [uB] is the author of [m1] and asks one
    second after sending it, but with a text of blanks only; the edit is
    refused, and with a 400, not a 403.  After the window the answer to the
    same text is the same 400. *)
Lemma editMessage_blank_text_counterexample :
  req_id (mkReqUser uB false) = Message.user message1 ∧
  (2000 - Message.timestamp message1 ≤ 5 * 60 * 1000)%Z ∧
  editMessage hex24 (mkReqUser uB false) m1 (Some "   ") 2000 db0 =
    (mkResponse 400 (ErrorJson "Message text is required."), db0) ∧
  ¬ succeeded (editMessage hex24 (mkReqUser uB false) m1 (Some "   ") 2000 db0).1 ∧
  (5 * 60 * 1000 < 900000 - Message.timestamp message1)%Z ∧
  editMessage hex24 (mkReqUser uB false) m1 (Some "   ") 900000 db0 =
    (mkResponse 400 (ErrorJson "Message text is required."), db0) ∧
  ¬ PermissionError (editMessage hex24 (mkReqUser uB false) m1 (Some "   ") 900000 db0).1.
Proof.
  split_and!; [done|by vm_compute|reflexivity| |by vm_compute|reflexivity|].
  - intros [H|H]; vm_compute in H; discriminate.
  - intros H; vm_compute in H; discriminate.
Qed.

Lemma editMessage_permission_witness :
  hex24 m1 = true ∧ messages db0 !! m1 = Some message1 ∧
  trimmed (Some "hello world") ≠ "" ∧
  succeeded (editMessage hex24 (mkReqUser uB false) m1 (Some "hello world") 121000 db0).1 ∧
  PermissionError
    (editMessage hex24 (mkReqUser uAdmin true) m1 (Some "hello world") 121000 db0).1 ∧
  PermissionError
    (editMessage hex24 (mkReqUser uB false) m1 (Some "hello world") 301001 db0).1 ∧
  trimmed (Some "   ") = "" ∧
  ValidationError (editMessage hex24 (mkReqUser uB false) m2 (Some "   ") 121000 db0).1.
Proof.
  assert (H1 : hex24 m1 = true) by reflexivity.
  assert (H2 : messages db0 !! m1 = Some message1) by reflexivity.
  assert (H3 : trimmed (Some "hello world") ≠ "") by discriminate.
  assert (H4 : trimmed (Some "   ") = "") by reflexivity.
  destruct (editMessage_permission hex24 (mkReqUser uB false) m1 (Some "hello world")
              121000 db0) as (_ & Hauthor).
  destruct (Hauthor message1 H1 H2 H3) as (Hiff & _).
  destruct (editMessage_permission hex24 (mkReqUser uAdmin true) m1 (Some "hello world")
              121000 db0) as (_ & Hadmin).
  destruct (Hadmin message1 H1 H2 H3) as (Hiffa & _ & Hrefused).
  destruct (editMessage_permission hex24 (mkReqUser uB false) m1 (Some "hello world")
              301001 db0) as (_ & Hlate).
  destruct (Hlate message1 H1 H2 H3) as (_ & Hwindow & _).
  destruct (editMessage_permission hex24 (mkReqUser uB false) m2 (Some "   ")
              121000 db0) as (Hblank & _).
  split_and!; [done|done|done| | | |done|].
  - apply Hiff. split; [reflexivity|]. vm_compute. discriminate.
  - apply Hrefused. intros [Hu _]%Hiffa. discriminate Hu.
  - apply Hwindow. reflexivity.
  - exact (proj2 (Hblank H4)).
Defined.

Lemma deleteMessage_permission_witness :
  hex24 m1 = true ∧ messages db0 !! m1 = Some message1 ∧
  clubs db0 !! Message.clubId message1 = Some clubA ∧
  succeeded (deleteMessage hex24 (mkReqUser uA false) m1 700000 db0).1.
Proof.
  assert (H1 : hex24 m1 = true) by reflexivity.
  assert (H2 : messages db0 !! m1 = Some message1) by reflexivity.
  assert (H3 : clubs db0 !! Message.clubId message1 = Some clubA) by reflexivity.
  destruct (deleteMessage_permission hex24 (mkReqUser uA false) m1 700000 db0
              message1 clubA H1 H2 H3) as (Hiff & _).
  split_and!; [done|done|done|]. apply Hiff. right. left. reflexivity.
Defined.

(** C7, the claim as stated fails: [uC] is not a member of [cA] and sends a
    text of blanks only; the refusal is a 400, not a 403. *)
Lemma sendMessage_blank_text_counterexample :
  clubs db0 !! cA = Some clubA ∧ (uC ∉ Club.members clubA) ∧
  (sendMessage hex24 (mkReqUser uC false) (Some "   ") cA 2000 m2 db0).1 =
    mkResponse 400 (ErrorJson "Message text is required.") ∧
  ¬ PermissionError (sendMessage hex24 (mkReqUser uC false) (Some "   ") cA 2000 m2 db0).1.
Proof.
  split_and!; [done| |done|].
  - intros H. repeat (apply elem_of_cons in H as [H|H]; [discriminate|]).
    by apply elem_of_nil in H.
  - intros H; vm_compute in H; discriminate.
Qed.

Lemma sendMessage_requires_membership_witness :
  hex24 cA = true ∧ clubs db0 !! cA = Some clubA ∧ (uC ∉ Club.members clubA) ∧
  PermissionError (sendMessage hex24 (mkReqUser uC false) (Some "hi") cA 2000 m2 db0).1 ∧
  (sendMessage hex24 (mkReqUser uC false) (Some "hi") cA 2000 m2 db0).2 = db0.
Proof.
  assert (H1 : hex24 cA = true) by reflexivity.
  assert (H2 : clubs db0 !! cA = Some clubA) by reflexivity.
  assert (H3 : req_id (mkReqUser uC false) ∉ Club.members clubA).
  { intros H. repeat (apply elem_of_cons in H as [H|H]; [discriminate|]).
    by apply elem_of_nil in H. }
  destruct (sendMessage_requires_membership hex24 (mkReqUser uC false) (Some "hi") cA
              2000 m2 db0 clubA H1 H2 H3) as (_ & Hdb & _ & Hperm & _).
  split_and!; [done|done|done| |done]. apply Hperm. discriminate.
Defined.

Lemma listMessages_requires_membership_witness :
  hex24 cA = true ∧ clubs db0 !! cA = Some clubA ∧ (uC ∉ Club.members clubA) ∧
  PermissionError (listMessages hex24 (mkReqUser uC false) cA (Finite 10) db0).1.
Proof.
  assert (H1 : hex24 cA = true) by reflexivity.
  assert (H2 : clubs db0 !! cA = Some clubA) by reflexivity.
  assert (H3 : req_id (mkReqUser uC false) ∉ Club.members clubA).
  { intros H. repeat (apply elem_of_cons in H as [H|H]; [discriminate|]).
    by apply elem_of_nil in H. }
  destruct (listMessages_requires_membership hex24 (mkReqUser uC false) cA (Finite 10)
              db0 clubA H1 H2 H3) as (Hperm & _).
  by split_and!.
Defined.

Lemma listMessages_sorted_capped_witness :
  hex24 cA = true ∧ clubs dbChat !! cA = Some clubA ∧
  listMessages hex24 (mkReqUser uA false) cA (Finite 2) dbChat
    = (mkResponse 200 (Docs [message1; message2]), dbChat) ∧
  (∃ l rest,
     listMessages hex24 (mkReqUser uA false) cA (Finite 2) dbChat
       = (mkResponse 200 (Docs l), dbChat) ∧
     StronglySorted byTimestamp l ∧
     (l ++ rest)%list ≡ₚ
       (map_to_list (filter (λ kv : string * Message.t, Message.clubId kv.2 = cA)
                       (messages dbChat))).*2 ∧
     (∀ m, m ∈ (l ++ rest)%list ↔
           ∃ k, messages dbChat !! k = Some m ∧ Message.clubId m = cA) ∧
     (∀ a b, a ∈ l → b ∈ rest → byTimestamp a b) ∧
     length l =
       (limitOf (Finite 2) `min`
        size (filter (λ kv : string * Message.t, Message.clubId kv.2 = cA)
                (messages dbChat)))%nat) ∧
  Z.of_nat (limitOf (Finite 2)) = Z.min 2 500 ∧
  Z.of_nat (limitOf (Finite 900)) = Z.min 900 500.
Proof.
  assert (H1 : hex24 cA = true) by reflexivity.
  assert (H2 : clubs dbChat !! cA = Some clubA) by reflexivity.
  destruct (listMessages_sorted_capped hex24 (mkReqUser uA false) cA (Finite 2) dbChat
              clubA H1 H2) as (Hiff & Hlist & Hcap & _).
  destruct (listMessages_sorted_capped hex24 (mkReqUser uA false) cA (Finite 900) dbChat
              clubA H1 H2) as (_ & _ & Hcap900 & _).
  split_and!; [done|done|reflexivity| | |].
  - apply Hlist, Hiff. apply list_elem_of_here.
  - apply (Hcap 2%Z eq_refl). reflexivity.
  - apply (Hcap900 900%Z eq_refl). reflexivity.
Defined.

Lemma joinRoom_idempotent_witness :
  online "C2" (joinRoom "tab1" (Some "C2") (Some "X")
                 (joinRoom "tab1" (Some "C2") (Some "X") twoTabs).1).1 = ["X"].
Proof.
  destruct (joinRoom_idempotent "tab1" (Some "C2") (Some "X") twoTabs) as (_ & Honline & _).
  rewrite Honline. reflexivity.
Defined.

(** ** How the chat routes compose *)

Open Scope list_scope.

Lemma Db_eta db : mkDb (clubs db) (users db) (messages db) = db.
Proof. by destruct db. Qed.

Lemma clubMessages_insert_fresh c db cs us k m :
  messages db !! k = None →
  clubMessages c (mkDb cs us (<[k := m]> (messages db))) ≡ₚ
    filter (λ m, Message.clubId m = c) [m] ++ clubMessages c db.
Proof.
  intros Hk. unfold clubMessages. simpl messages.
  rewrite (map_to_list_insert (messages db) k m Hk). rewrite fmap_cons. simpl snd.
  change (m :: (map_to_list (messages db)).*2)
    with ([m] ++ (map_to_list (messages db)).*2).
  by rewrite filter_app.
Qed.

Lemma clubMessages_delete c db cs us k m :
  messages db !! k = Some m →
  clubMessages c db ≡ₚ
    filter (λ m, Message.clubId m = c) [m] ++
    clubMessages c (mkDb cs us (delete k (messages db))).
Proof.
  intros Hk. unfold clubMessages. simpl messages.
  rewrite <- (map_to_list_delete (messages db) k m Hk). rewrite fmap_cons. simpl snd.
  change (m :: (map_to_list (delete k (messages db))).*2)
    with ([m] ++ (map_to_list (delete k (messages db))).*2).
  by rewrite filter_app.
Qed.

Lemma clubMessages_frame c cs us cs' us' ms :
  clubMessages c (mkDb cs us ms) = clubMessages c (mkDb cs' us' ms).
Proof. done. Qed.

Lemma limitOf_ge_1 L : (1 ≤ limitOf L)%nat.
Proof.
  destruct L as [| |z]; simpl; try lia.
  destruct (0 <? z)%Z eqn:E; [|lia]. apply Z.ltb_lt in E. lia.
Qed.

Section MessageFlow.

Variable isValidObjectId : string → bool.

Ltac settle :=
  repeat match goal with
  | H : ?x = _ |- context [?x] => rewrite H
  end; simpl.

(** What a successful send has checked. *)
Lemma sendMessage_succeeded_inv u message clubId now newId db :
  succeeded (sendMessage isValidObjectId u message clubId now newId db).1 →
  trimmed message ≠ "" ∧ isValidObjectId clubId = true ∧
  ∃ club user,
    clubs db !! clubId = Some club ∧ req_id u ∈ Club.members club ∧
    users db !! req_id u = Some user ∧
    sendMessage isValidObjectId u message clubId now newId db =
      (mkResponse 201
         (Doc (Message.mk newId (req_id u) (orElse (User.UserName user) "Unknown User")
                 (orElse (User.avatar user) "") (trimmed message) clubId now)),
       mkDb (clubs db) (users db)
         (<[newId := Message.mk newId (req_id u)
                       (orElse (User.UserName user) "Unknown User")
                       (orElse (User.avatar user) "") (trimmed message) clubId now]>
            (messages db))).
Proof.
  unfold sendMessage, succeeded.
  destruct (decide (trimmed message = "")); simpl; [by intros [|]|].
  destruct (isValidObjectId clubId) eqn:Hv; simpl; [|by intros [|]].
  destruct (clubs db !! clubId) as [club|] eqn:Hc; simpl; [|by intros [|]].
  destruct (includes _ _) eqn:Hin; simpl; [|by intros [|]].
  destruct (users db !! req_id u) as [user|] eqn:Hu; simpl; [|by intros [|]].
  intros _. apply includes_true in Hin. split_and!; try done.
  exists club, user. by rewrite serializeMessage_id.
Qed.

(** X1: a successful send under an unused identifier adds exactly one
    message to the club: the club has one message more, the new document
    carries the trimmed text (never blank), the requester as author and the
    time of the call, and the messages of every other club are as before. *)
Theorem sendMessage_appends u message clubId now newId db :
  messages db !! newId = None →
  succeeded (sendMessage isValidObjectId u message clubId now newId db).1 →
  ∃ m,
    messages (sendMessage isValidObjectId u message clubId now newId db).2 !! newId = Some m ∧
    Message.message m = trimmed message ∧ Message.message m ≠ "" ∧
    Message.user m = req_id u ∧ Message.clubId m = clubId ∧ Message.timestamp m = now ∧
    clubMessages clubId (sendMessage isValidObjectId u message clubId now newId db).2
      ≡ₚ m :: clubMessages clubId db ∧
    (∀ k, k ≠ newId →
       messages (sendMessage isValidObjectId u message clubId now newId db).2 !! k =
       messages db !! k) ∧
    (∀ c, c ≠ clubId →
       clubMessages c (sendMessage isValidObjectId u message clubId now newId db).2
         ≡ₚ clubMessages c db).
Proof.
  intros Hfresh Hok.
  destruct (sendMessage_succeeded_inv _ _ _ _ _ _ Hok)
    as (Hb & _ & club & user & _ & _ & _ & ->).
  simpl. eexists. split; [apply lookup_insert_eq|]. simpl.
  split_and!; try done.
  - rewrite clubMessages_insert_fresh by done.
    by rewrite filter_cons_True by done.
  - intros k Hk. by rewrite lookup_insert_ne.
  - intros c Hc. rewrite clubMessages_insert_fresh by done.
    by rewrite filter_cons_False by (simpl; congruence).
Qed.

(** X2: sending and then deleting is a round trip.  When the author deletes
    the message just sent (under an unused identifier) within five minutes,
    the delete succeeds and the store is exactly the one before the send. *)
Theorem sendMessage_then_deleteMessage u message clubId now newId db now' :
  messages db !! newId = None →
  isValidObjectId newId = true →
  succeeded (sendMessage isValidObjectId u message clubId now newId db).1 →
  (now' - now ≤ 5 * 60 * 1000)%Z →
  deleteMessage isValidObjectId u newId now'
    (sendMessage isValidObjectId u message clubId now newId db).2 =
  (mkResponse 200 (SuccessJson "Message deleted successfully."), db).
Proof.
  intros Hfresh Hid Hok Hw.
  destruct (sendMessage_succeeded_inv _ _ _ _ _ _ Hok)
    as (Hb & _ & club & user & Hc & _ & _ & ->).
  unfold deleteMessage. simpl. rewrite Hid, lookup_insert_eq. simpl. rewrite Hc.
  unfold toStringId, TIME_LIMIT_MS. simpl.
  rewrite (bool_decide_eq_true_2 (req_id u = req_id u)) by done.
  rewrite (proj2 (Z.leb_le _ _)) by done.
  rewrite orb_true_r. simpl.
  by rewrite delete_insert_id, Db_eta.
Qed.

(** X3: repeating an edit later changes nothing more.  When the same edit
    request is made again at a later time, the store is the one the first
    request left; the answer is the same as the first as long as the
    message, if there is one, is still within five minutes of its sending,
    and a 403 once a first, successful edit is followed by a repeat after
    those five minutes.  Whatever the outcome, every club has as many
    messages after an edit as before. *)
Theorem editMessage_idempotent u id message now now' db :
  (now ≤ now')%Z →
  (editMessage isValidObjectId u id message now'
     (editMessage isValidObjectId u id message now db).2).2 =
    (editMessage isValidObjectId u id message now db).2 ∧
  ((∀ m, messages db !! id = Some m →
         (now' - Message.timestamp m ≤ 5 * 60 * 1000)%Z) →
   (editMessage isValidObjectId u id message now'
      (editMessage isValidObjectId u id message now db).2).1 =
     (editMessage isValidObjectId u id message now db).1) ∧
  (succeeded (editMessage isValidObjectId u id message now db).1 →
   ∀ m, messages db !! id = Some m →
        (5 * 60 * 1000 < now' - Message.timestamp m)%Z →
   (editMessage isValidObjectId u id message now'
      (editMessage isValidObjectId u id message now db).2).1 =
     mkResponse 403
       (ErrorJson "Messages can only be edited within five minutes of sending.")) ∧
  ∀ c, length (clubMessages c (editMessage isValidObjectId u id message now db).2) =
       length (clubMessages c db).
Proof.
  intros Hle. unfold editMessage, succeeded, TIME_LIMIT_MS.
  destruct (decide (trimmed message = "")) as [Hb|Hb]; simpl.
  { split_and!; try done; by intros [|]. }
  destruct (isValidObjectId id) eqn:Hv; simpl.
  2: { split_and!; try done; by intros [|]. }
  destruct (messages db !! id) as [m|] eqn:Hm; simpl.
  2: { rewrite Hm. split_and!; try done; by intros [|]. }
  destruct (bool_decide (toStringId (Message.user m) = req_id u)) eqn:Ho; simpl.
  2: { rewrite Hm. simpl. rewrite Ho. simpl. split_and!; try done; by intros [|]. }
  destruct (5 * 60 * 1000 <? now - Message.timestamp m)%Z eqn:Hw; simpl.
  { apply Z.ltb_lt in Hw. rewrite Hm. simpl. rewrite Ho. simpl.
    assert (Hw' : (5 * 60 * 1000 <? now' - Message.timestamp m)%Z = true)
      by (apply Z.ltb_lt; lia).
    rewrite Hw'. simpl. split_and!; try done; by intros [|]. }
  apply Z.ltb_ge in Hw. rewrite lookup_insert_eq. simpl. rewrite Ho. simpl.
  split_and!.
  - destruct (5 * 60 * 1000 <? now' - Message.timestamp m)%Z; simpl; [done|].
    by rewrite insert_insert_eq.
  - intros Hin. specialize (Hin m eq_refl).
    by rewrite (proj2 (Z.ltb_ge _ _) Hin).
  - intros _ m0 [= <-] Hlate. by rewrite (proj2 (Z.ltb_lt _ _) Hlate).
  - intros c.
    rewrite (clubMessages_delete c db (clubs db) (users db) id m Hm).
    rewrite <- (insert_delete_eq (messages db)).
    epose proof (clubMessages_insert_fresh c
                   (mkDb (clubs db) (users db) (delete id (messages db)))
                   (clubs db) (users db) id _ (lookup_delete_eq _ _)) as Hins.
    simpl messages in Hins. rewrite Hins.
    rewrite !length_app. f_equal.
    destruct (decide (Message.clubId m = c)) as [Hc|Hc].
    + by rewrite !filter_cons_True.
    + by rewrite !filter_cons_False.
Qed.

(** X4: a successful delete takes exactly one message out of the store: the
    club of the message has one message fewer and no other club is affected;
    repeating the delete, or editing the deleted message, answers 404 and
    changes nothing. *)
Theorem deleteMessage_removes_one u id now db m :
  messages db !! id = Some m →
  succeeded (deleteMessage isValidObjectId u id now db).1 →
  messages (deleteMessage isValidObjectId u id now db).2 !! id = None ∧
  S (length (clubMessages (Message.clubId m) (deleteMessage isValidObjectId u id now db).2))
    = length (clubMessages (Message.clubId m) db) ∧
  (∀ c, c ≠ Message.clubId m →
     length (clubMessages c (deleteMessage isValidObjectId u id now db).2) =
     length (clubMessages c db)) ∧
  (∀ u' now', NotFoundError
     (deleteMessage isValidObjectId u' id now'
        (deleteMessage isValidObjectId u id now db).2).1) ∧
  (∀ u' text now', trimmed text ≠ "" →
     NotFoundError
       (editMessage isValidObjectId u' id text now'
          (deleteMessage isValidObjectId u id now db).2).1).
Proof.
  intros Hm. unfold deleteMessage at 1, succeeded.
  destruct (isValidObjectId id) eqn:Hv; simpl; [|by intros [|]].
  rewrite Hm. destruct (clubs db !! Message.clubId m) as [c|] eqn:Hc; simpl;
    [|by intros [|]].
  destruct (negb _) eqn:Hperm; simpl; [by intros [|]|]. intros _.
  unfold deleteMessage. rewrite Hv, Hm, Hc. simpl. rewrite Hperm. simpl.
  split_and!.
  - apply lookup_delete_eq.
  - rewrite (clubMessages_delete (Message.clubId m) db (clubs db) (users db) id m Hm).
    by rewrite filter_cons_True.
  - intros c' Hc'.
    rewrite (clubMessages_delete c' db (clubs db) (users db) id m Hm).
    by rewrite filter_cons_False by congruence.
  - intros u' now'. simpl. by rewrite lookup_delete_eq.
  - intros u' text now' Hb. unfold editMessage. rewrite decide_False by done.
    rewrite Hv. simpl. by rewrite lookup_delete_eq.
Qed.

(** X5: the listing is never empty for a member of a club that has messages
    and never longer than 500, whatever limit is asked for. *)
Theorem listMessages_bounds u clubId L db c :
  isValidObjectId clubId = true →
  clubs db !! clubId = Some c →
  req_id u ∈ Club.members c →
  ∃ l, (listMessages isValidObjectId u clubId L db).1 = mkResponse 200 (Docs l) ∧
       (length l ≤ 500)%nat ∧
       (l = [] ↔ clubMessages clubId db = []).
Proof.
  intros Hid Hc Hmem. unfold listMessages. settle.
  apply includes_true in Hmem. rewrite Hmem. simpl.
  rewrite serializeMessage_fmap. eexists. split; [done|]. unfold findByClub.
  pose proof (merge_sort_Permutation byTimestamp (clubMessages clubId db)) as Hp.
  pose proof (limitOf_ge_1 L) as H1. pose proof (limitOf_le_500 L) as H500.
  split.
  - rewrite length_take. lia.
  - destruct (merge_sort byTimestamp (clubMessages clubId db)) as [|x xs] eqn:E.
    + apply Permutation_nil_l in Hp. rewrite <- Hp. by rewrite take_nil.
    + destruct (limitOf L) as [|n]; [lia|]. simpl. split; [done|].
      intros Hnil. rewrite Hnil in Hp. by apply Permutation_nil_r in Hp.
Qed.

End MessageFlow.

(** ** Membership *)

Lemma Club_eta c : Club.mk (Club._id c) (Club.createdBy c) (Club.members c) = c.
Proof. by destruct c. Qed.

Lemma User_eta usr :
  User.mk (User._id usr) (User.isAdmin usr) (User.UserName usr) (User.avatar usr)
    (User.joinedClubs usr) = usr.
Proof. by destruct usr. Qed.

Lemma Exists_toStringId x (l : list string) :
  Exists (λ y, toStringId y = x) l ↔ x ∈ l.
Proof.
  rewrite Exists_exists. unfold toStringId. split.
  - by intros (y & Hy & ->).
  - intros Hx. by exists x.
Qed.

Lemma filter_ne_not_elem_of x (l : list string) : x ∉ filter (λ y, y ≠ x) l.
Proof. rewrite list_elem_of_filter. tauto. Qed.

Lemma filter_ne_elem_of x y (l : list string) :
  y ≠ x → (y ∈ filter (λ z, z ≠ x) l ↔ y ∈ l).
Proof. intros Hne. rewrite list_elem_of_filter. tauto. Qed.

Lemma filter_ne_snoc x (l : list string) :
  x ∉ l → filter (λ y, y ≠ x) (l ++ [x]) = l.
Proof.
  intros Hx. rewrite filter_app, filter_absent by done.
  rewrite filter_cons_False by tauto. by rewrite filter_nil, app_nil_r.
Qed.

Lemma findIndex_None x (l : list string) : findIndex x l = None ↔ x ∉ l.
Proof.
  induction l as [|y l IH]; simpl.
  - split; [intros _; apply not_elem_of_nil|done].
  - unfold toStringId. rewrite not_elem_of_cons. destruct (decide (y = x)) as [->|Hne].
    + split; [done|]. by intros [? _].
    + destruct (findIndex x l); simpl.
      * split; [done|]. intros [_ Hx]. by apply IH in Hx.
      * split; [|done]. intros _. split; [done|]. by apply IH.
Qed.

Lemma delete_findIndex x (l : list string) i :
  NoDup l → findIndex x l = Some i → delete i l = filter (λ y, y ≠ x) l.
Proof.
  intros Hnd. revert i. induction Hnd as [|y l Hy Hnd IH]; intros i; simpl; [done|].
  unfold toStringId. destruct (decide (y = x)) as [->|Hne].
  - intros [= <-]. simpl. rewrite filter_cons_False by tauto.
    by rewrite filter_absent.
  - destruct (findIndex x l) as [j|] eqn:Hj; simpl; [|done].
    intros [= <-]. simpl. rewrite filter_cons_True by done. by rewrite (IH j).
Qed.

Section ClubFlow.

Variable isValidId : string → bool.
Variable castObjectId : string → string.
Variable clubSchemaAccepts : string → string → string → bool.

(** What a successful join has checked, and what it wrote. *)
Lemma joinClub_succeeded_inv u clubId db :
  cstatus (joinClub isValidId castObjectId u clubId db).1 = 200%nat →
  isValidId (req_id u) = true ∧ isValidId clubId = true ∧
  ∃ user club,
    users db !! req_id u = Some user ∧ clubs db !! castObjectId clubId = Some club ∧
    (joinClub isValidId castObjectId u clubId db).2 =
      mkDb (if bool_decide (req_id u ∈ Club.members club) then clubs db
            else <[castObjectId clubId :=
                     Club.mk (Club._id club) (Club.createdBy club)
                       (Club.members club ++ [req_id u])]> (clubs db))
           (if bool_decide (clubId ∈ User.joinedClubs user) then users db
            else <[req_id u := User.mk (User._id user) (User.isAdmin user)
                                 (User.UserName user) (User.avatar user)
                                 (User.joinedClubs user ++ [castObjectId clubId])]>
                   (users db))
           (messages db).
Proof using Type.
  unfold joinClub.
  destruct (isValidId (req_id u)) eqn:Hu; simpl; [|done].
  destruct (isValidId clubId) eqn:Hc; simpl; [|done].
  destruct (users db !! req_id u) as [user|] eqn:Huser; simpl; [|done].
  destruct (clubs db !! castObjectId clubId) as [club|] eqn:Hclub; simpl; [|done].
  intros _. split_and!; try done. exists user, club. split_and!; try done.
  rewrite (bool_decide_ext _ _ (Exists_toStringId (req_id u) (Club.members club))).
  rewrite (bool_decide_ext _ _ (Exists_toStringId clubId (User.joinedClubs user))).
  by destruct (bool_decide (req_id u ∈ Club.members club)).
Qed.

Lemma joinClub_member_unchanged u clubId db club user :
  clubs db !! castObjectId clubId = Some club → users db !! req_id u = Some user →
  req_id u ∈ Club.members club → clubId ∈ User.joinedClubs user →
  (joinClub isValidId castObjectId u clubId db).2 = db.
Proof using Type.
  intros Hc Hu Hm Hj. unfold joinClub. destruct (_ || _); [done|].
  rewrite Hu, Hc. simpl.
  rewrite !bool_decide_eq_true_2 by by apply Exists_toStringId.
  apply Db_eta.
Qed.

Lemma sendMessage_member u text clubId now newId db club user :
  isValidId clubId = true → clubs db !! clubId = Some club →
  req_id u ∈ Club.members club → users db !! req_id u = Some user →
  trimmed text ≠ "" →
  succeeded (sendMessage isValidId u text clubId now newId db).1.
Proof using Type.
  intros Hv Hc Hm Hu Hb. unfold sendMessage, succeeded.
  rewrite decide_False by done. rewrite Hv, Hc. simpl.
  apply includes_true in Hm. rewrite Hm, Hu. simpl. by right.
Qed.

Lemma sendMessage_nonmember u text clubId now newId db club :
  clubs db !! clubId = Some club → req_id u ∉ Club.members club →
  ¬ succeeded (sendMessage isValidId u text clubId now newId db).1 ∧
  (sendMessage isValidId u text clubId now newId db).2 = db.
Proof using Type.
  intros Hc Hm. unfold sendMessage, succeeded.
  destruct (decide _); simpl; [split; [by intros [|]|done]|].
  destruct (isValidId clubId); simpl; [|split; [by intros [|]|done]].
  rewrite Hc. apply includes_false in Hm. rewrite Hm. simpl.
  split; [by intros [|]|done].
Qed.

Lemma listMessages_member u clubId L db club :
  isValidId clubId = true → clubs db !! clubId = Some club →
  req_id u ∈ Club.members club →
  succeeded (listMessages isValidId u clubId L db).1.
Proof using Type.
  intros Hv Hc Hm. unfold listMessages, succeeded. rewrite Hv, Hc. simpl.
  apply includes_true in Hm. rewrite Hm. simpl. by left.
Qed.

Lemma listMessages_nonmember u clubId L db club :
  isValidId clubId = true → clubs db !! clubId = Some club →
  req_id u ∉ Club.members club →
  PermissionError (listMessages isValidId u clubId L db).1.
Proof using Type.
  intros Hv Hc Hm. unfold listMessages, PermissionError. rewrite Hv, Hc. simpl.
  apply includes_false in Hm. by rewrite Hm.
Qed.

(** What the store holds for the requester after a successful join. *)
Lemma joinClub_member_after u clubId db :
  castObjectId clubId = clubId →
  cstatus (joinClub isValidId castObjectId u clubId db).1 = 200%nat →
  ∃ club' user',
    clubs (joinClub isValidId castObjectId u clubId db).2 !! clubId = Some club' ∧
    req_id u ∈ Club.members club' ∧
    users (joinClub isValidId castObjectId u clubId db).2 !! req_id u = Some user' ∧
    clubId ∈ User.joinedClubs user'.
Proof using Type.
  intros Hcast Hok.
  destruct (joinClub_succeeded_inv u clubId db Hok)
    as (_ & _ & user & club & Hu & Hc & ->). rewrite Hcast in *. simpl.
  case_bool_decide as Hm; case_bool_decide as Hj.
  - by exists club, user.
  - eexists club, _. split_and!; [done|done|apply lookup_insert_eq|]. simpl.
    apply elem_of_app. right. apply list_elem_of_here.
  - eexists _, user. split_and!; [apply lookup_insert_eq| |done|done]. simpl.
    apply elem_of_app. right. apply list_elem_of_here.
  - eexists _, _. split_and!; [apply lookup_insert_eq| |apply lookup_insert_eq|]; simpl;
      apply elem_of_app; right; apply list_elem_of_here.
Qed.

(** X6: joining grants what membership gates.  For a club id spelled as the
    club is stored, after a successful join the requester is in the club's
    member list and the club is in the requester's joined clubs; joining
    again changes nothing; and the requester can send any text that is not
    blank and list the messages. *)
Theorem joinClub_grants u clubId db :
  castObjectId clubId = clubId →
  cstatus (joinClub isValidId castObjectId u clubId db).1 = 200%nat →
  (∃ club' user',
     clubs (joinClub isValidId castObjectId u clubId db).2 !! clubId = Some club' ∧
     req_id u ∈ Club.members club' ∧
     users (joinClub isValidId castObjectId u clubId db).2 !! req_id u = Some user' ∧
     clubId ∈ User.joinedClubs user') ∧
  (joinClub isValidId castObjectId u clubId
     (joinClub isValidId castObjectId u clubId db).2).2 =
    (joinClub isValidId castObjectId u clubId db).2 ∧
  (∀ text now newId, trimmed text ≠ "" →
     succeeded (sendMessage isValidId u text clubId now newId
                  (joinClub isValidId castObjectId u clubId db).2).1) ∧
  (∀ L, succeeded (listMessages isValidId u clubId L
                     (joinClub isValidId castObjectId u clubId db).2).1).
Proof using Type.
  intros Hcast Hok.
  destruct (joinClub_succeeded_inv u clubId db Hok) as (_ & Hv & _).
  destruct (joinClub_member_after u clubId db Hcast Hok)
    as (club' & user' & Hc & Hm & Hu & Hj).
  split_and!.
  - by exists club', user'.
  - eapply joinClub_member_unchanged; [by rewrite Hcast|done|done|done].
  - intros text now newId Hb. by eapply sendMessage_member.
  - intros L. by eapply listMessages_member.
Qed.

(** X7: joining and then leaving is a round trip.  For a requester who was
    not a member, did not have the club among the joined clubs and is not
    the creator, leaving after a successful join succeeds and restores the
    store exactly.  The club id is the one the club is stored under. *)
Theorem joinClub_then_leaveClub u clubId db club user :
  castObjectId clubId = clubId →
  clubs db !! clubId = Some club →
  users db !! req_id u = Some user →
  req_id u ∉ Club.members club →
  clubId ∉ User.joinedClubs user →
  req_id u ≠ Club.createdBy club →
  cstatus (joinClub isValidId castObjectId u clubId db).1 = 200%nat →
  leaveClub isValidId u clubId (joinClub isValidId castObjectId u clubId db).2 =
    (mkResponse 200 (MessageJson "Left club successfully"), db).
Proof using Type.
  intros Hcast Hc Hu Hm Hj Hcr Hok.
  destruct (joinClub_succeeded_inv u clubId db Hok)
    as (Hvu & Hvc & user0 & club0 & Hu0 & Hc0 & ->).
  rewrite Hcast in *. rewrite Hu in Hu0. rewrite Hc in Hc0. simplify_eq.
  rewrite !bool_decide_eq_false_2 by done.
  unfold leaveClub. rewrite Hvu, Hvc. simpl. rewrite lookup_insert_eq. simpl.
  unfold toStringId. rewrite bool_decide_eq_false_2 by done.
  f_equal. rewrite insert_insert_eq. rewrite filter_ne_snoc by done.
  rewrite Club_eta, (insert_id _ _ _ Hc).
  unfold pullJoinedClub. rewrite alter_insert_eq. simpl.
  rewrite filter_ne_snoc by done. rewrite User_eta, (insert_id _ _ _ Hu).
  apply Db_eta.
Qed.

(** X8: leaving never asks whether the requester is a member.  On an
    existing club, a requester other than the creator gets 200 either way;
    afterwards the requester is not in the member list, the other members
    are as before, the club is not among the requester's joined clubs, no
    other club or user has changed, and the requester can neither send to
    the club nor list its messages. *)
Theorem leaveClub_effect u clubId db club :
  isValidId clubId = true →
  isValidId (req_id u) = true →
  clubs db !! clubId = Some club →
  req_id u ≠ Club.createdBy club →
  (leaveClub isValidId u clubId db).1 = mkResponse 200 (MessageJson "Left club successfully") ∧
  (∃ club',
     clubs (leaveClub isValidId u clubId db).2 !! clubId = Some club' ∧
     Club.createdBy club' = Club.createdBy club ∧
     (req_id u ∉ Club.members club') ∧
     ∀ v, v ≠ req_id u → (v ∈ Club.members club' ↔ v ∈ Club.members club)) ∧
  (∀ user', users (leaveClub isValidId u clubId db).2 !! req_id u = Some user' →
     clubId ∉ User.joinedClubs user') ∧
  (∀ c, c ≠ clubId → clubs (leaveClub isValidId u clubId db).2 !! c = clubs db !! c) ∧
  (∀ v, v ≠ req_id u → users (leaveClub isValidId u clubId db).2 !! v = users db !! v) ∧
  messages (leaveClub isValidId u clubId db).2 = messages db ∧
  (∀ text now newId,
     ¬ succeeded (sendMessage isValidId u text clubId now newId
                    (leaveClub isValidId u clubId db).2).1) ∧
  (∀ L, PermissionError
          (listMessages isValidId u clubId L (leaveClub isValidId u clubId db).2).1).
Proof using Type.
  intros Hvc Hvu Hc Hcr. unfold leaveClub. rewrite Hvc, Hvu, Hc. simpl.
  unfold toStringId. rewrite bool_decide_eq_false_2 by done. simpl.
  set (club' := Club.mk _ _ _).
  assert (Hc' : (<[clubId := club']> (clubs db)) !! clubId = Some club')
    by apply lookup_insert_eq.
  assert (Hm' : req_id u ∉ Club.members club') by apply filter_ne_not_elem_of.
  split_and!.
  - done.
  - exists club'. split_and!; try done. intros v Hv. by apply filter_ne_elem_of.
  - intros user'. unfold pullJoinedClub. rewrite lookup_alter_eq.
    destruct (users db !! req_id u); [|done]. simpl. intros [= <-]. simpl.
    apply filter_ne_not_elem_of.
  - intros c Hne. by rewrite lookup_insert_ne.
  - intros v Hne. unfold pullJoinedClub. by rewrite lookup_alter_ne.
  - done.
  - intros text now newId. by eapply sendMessage_nonmember.
  - intros L. by eapply listMessages_nonmember.
Qed.

Lemma elem_of_populated (us : gmap string User.t) (l : list string) x :
  Exists (λ member, toStringId (ref_id member) = x) (omap (populateUser us) l) ↔
  x ∈ l ∧ is_Some (us !! x).
Proof using Type.
  rewrite Exists_exists. unfold toStringId, populateUser. split.
  - intros (r & Hr & <-). apply list_elem_of_omap in Hr as (y & Hy & Hf).
    destruct (us !! y) eqn:E; simplify_eq/=. split; [done|by eexists].
  - intros (Hx & usr & Hu).
    exists (mkUserRef x (User.UserName usr) (User.avatar usr)). split; [|done].
    apply list_elem_of_omap. exists x. split; [done|]. by rewrite Hu.
Qed.

(** X9: who may look at a club.  To a requester who has a user document,
    as every requester that [authenticateToken] lets through has, the
    details of an existing club are served exactly when the requester is a
    member or the creator, the creator also when no longer in the member
    list; everyone else gets a 403. *)
Theorem getClub_permission u id db club :
  isValidId id = true →
  clubs db !! id = Some club →
  is_Some (users db !! req_id u) →
  (cstatus (getClub isValidId u id db) = 200%nat ↔
     req_id u ∈ Club.members club ∨ req_id u = Club.createdBy club) ∧
  (cstatus (getClub isValidId u id db) ≠ 200%nat →
     getClub isValidId u id db =
       mkClubsResponse 403
         (CMessage "You must be a member or the club creator to view details.")) ∧
  (cstatus (getClub isValidId u id db) = 200%nat →
     getClub isValidId u id db =
       mkClubsResponse 200 (CClub (serializeClub (users db) club))).
Proof using Type.
  intros Hv Hc Hu. unfold getClub. rewrite Hv, Hc. simpl.
  pose proof (elem_of_populated (users db) (Club.members club) (req_id u)) as Hmem.
  assert (Hcr : match populateUser (users db) (Club.createdBy club) with
                | Some creator => bool_decide (toStringId (ref_id creator) = req_id u)
                | None => false
                end = true ↔
                req_id u = Club.createdBy club ∧ is_Some (users db !! req_id u)).
  { unfold populateUser, toStringId.
    destruct (users db !! Club.createdBy club) as [usr|] eqn:E; simpl.
    - rewrite bool_decide_eq_true. split.
      + intros <-. split; [done|]. by rewrite E.
      + by intros [-> _].
    - split; [done|]. intros [-> [? ?]]. congruence. }
  case_bool_decide as Hm; simpl.
  - apply Hmem in Hm as [Hm _]. split_and!; [|done|done]. split; auto.
  - destruct (match populateUser _ _ with Some _ => _ | None => _ end); simpl.
    + destruct (proj1 Hcr eq_refl) as [Heq _]. split_and!; [|done|done]. split; auto.
    + split_and!; [|done|done]. split; [done|].
      intros [Hin|Heq]; exfalso.
      * apply Hm, Hmem. by split.
      * assert (false = true); [|done]. by apply Hcr.
Qed.

(** What a successful remove through clubs.js has checked, and what it
    wrote. *)
Lemma clubs_removeMember_succeeded_inv u clubId userId db :
  succeeded (clubs_removeMember isValidId u clubId userId db).1 →
  isValidId clubId = true ∧
  ∃ club,
    clubs db !! clubId = Some club ∧ userId ∈ Club.members club ∧
    (clubs_removeMember isValidId u clubId userId db).2 =
      mkDb (<[clubId := Club.mk (Club._id club) (Club.createdBy club)
                          (filter (λ member, member ≠ userId) (Club.members club))]>
              (clubs db))
           (pullJoinedClub userId clubId (users db)) (messages db).
Proof using Type.
  unfold clubs_removeMember, succeeded.
  destruct (isValidId clubId) eqn:Hv; simpl; [|by intros [|]].
  destruct (negb (isValidId userId)); simpl; [by intros [|]|].
  destruct (clubs db !! clubId) as [club|] eqn:Hc; simpl; [|by intros [|]].
  destruct (negb _); simpl; [by intros [|]|].
  case_bool_decide as Hm; simpl; [|by intros [|]]. intros _.
  apply Exists_toStringId in Hm. split; [done|]. by exists club.
Qed.

(** X10: removal revokes what membership gates.  After a successful remove
    through clubs.js the target is not in the member list and the club is
    not among the target's joined clubs; the target can no longer send to
    the club or list its messages, and can look at the club only as its
    creator. *)
Theorem clubs_removeMember_revokes u clubId userId db :
  succeeded (clubs_removeMember isValidId u clubId userId db).1 →
  ∃ club',
    clubs (clubs_removeMember isValidId u clubId userId db).2 !! clubId = Some club' ∧
    (userId ∉ Club.members club') ∧
    (∀ user', users (clubs_removeMember isValidId u clubId userId db).2 !! userId = Some user' →
       clubId ∉ User.joinedClubs user') ∧
    (∀ isAdmin text now newId,
       ¬ succeeded (sendMessage isValidId (mkReqUser userId isAdmin) text clubId now newId
                      (clubs_removeMember isValidId u clubId userId db).2).1) ∧
    (∀ isAdmin L,
       PermissionError (listMessages isValidId (mkReqUser userId isAdmin) clubId L
                          (clubs_removeMember isValidId u clubId userId db).2).1) ∧
    (∀ isAdmin, userId ≠ Club.createdBy club' →
       cstatus (getClub isValidId (mkReqUser userId isAdmin) clubId
                  (clubs_removeMember isValidId u clubId userId db).2) = 403%nat).
Proof using Type.
  intros Hok.
  destruct (clubs_removeMember_succeeded_inv _ _ _ _ Hok) as (Hv & club & Hc & Hm & ->).
  eexists. split; [apply lookup_insert_eq|]. simpl.
  assert (Hout : userId ∉ filter (λ member, member ≠ userId) (Club.members club))
    by apply filter_ne_not_elem_of.
  split_and!.
  - done.
  - intros user'. unfold pullJoinedClub. rewrite lookup_alter_eq.
    destruct (users db !! userId); [|done]. simpl. intros [= <-]. simpl.
    apply filter_ne_not_elem_of.
  - intros isAdmin text now newId.
    eapply sendMessage_nonmember; [apply lookup_insert_eq|done].
  - intros isAdmin L.
    eapply listMessages_nonmember; [done|apply lookup_insert_eq|done].
  - intros isAdmin Hcr. unfold getClub. rewrite Hv. simpl. rewrite lookup_insert_eq.
    simpl. rewrite bool_decide_eq_false_2.
    2: { intros [Hin _]%elem_of_populated. done. }
    simpl. unfold populateUser, toStringId.
    destruct (pullJoinedClub _ _ _ !! Club.createdBy club); simpl; [|done].
    by rewrite bool_decide_eq_false_2.
Qed.

(** X11: for identifiers spelled as they are stored, the two remove-member
    routes differ only on ill-formed stores.  When the club id and the
    target's user id are in their stored spelling, the member list of the
    club has no duplicates and the target has a user document, the route of
    messages.js and the route of clubs.js give the same status and leave
    the same store. *)
Theorem removeMember_routes_agree u clubId userId db :
  castObjectId clubId = clubId →
  castObjectId userId = userId →
  (∀ club, clubs db !! clubId = Some club → NoDup (Club.members club)) →
  is_Some (users db !! userId) →
  status (removeMember isValidId castObjectId u clubId userId db).1 =
    status (clubs_removeMember isValidId u clubId userId db).1 ∧
  (removeMember isValidId castObjectId u clubId userId db).2 =
    (clubs_removeMember isValidId u clubId userId db).2.
Proof using Type.
  intros Hcc Hcu Hnd [user Hu]. unfold removeMember, clubs_removeMember.
  rewrite Hcc, Hcu.
  destruct (_ || _); [done|].
  destruct (clubs db !! clubId) as [club|] eqn:Hc; [|done].
  specialize (Hnd club eq_refl).
  destruct (bool_decide (toStringId (Club.createdBy club) = req_id u)),
    (req_isAdmin u); simpl; try done.
  all: destruct (findIndex userId (Club.members club)) as [i|] eqn:Hi; simpl.
  all: try (apply findIndex_None in Hi;
            rewrite bool_decide_eq_false_2 by (by rewrite Exists_toStringId); done).
  all: assert (Hin : userId ∈ Club.members club)
         by (destruct (decide (userId ∈ Club.members club)) as [|Hn]; [done|];
             apply findIndex_None in Hn; congruence).
  all: rewrite bool_decide_eq_true_2 by (by rewrite Exists_toStringId); simpl.
  all: rewrite Hu; simpl; split; [done|].
  all: rewrite (delete_findIndex _ _ _ Hnd Hi).
  all: unfold pullJoinedClub, toStringId; f_equal.
  all: apply map_eq; intros k; destruct (decide (k = userId)) as [->|Hne].
  all: rewrite ?lookup_insert_eq, ?lookup_alter_eq, ?Hu,
         ?lookup_insert_ne, ?lookup_alter_ne by done; done.
Qed.

(** One club and one user change together. *)
Lemma consistent_update db clubId club club' userId (upd : User.t → User.t)
    (cs' : gmap string Club.t) (us' : gmap string User.t) ms' :
  consistent db →
  clubs db !! clubId = Some club →
  (∀ c, cs' !! c = if decide (c = clubId) then Some club' else clubs db !! c) →
  (∀ v, us' !! v = if decide (v = userId) then upd <$> users db !! v else users db !! v) →
  NoDup (Club.members club') →
  (∀ v, v ≠ userId → (v ∈ Club.members club' ↔ v ∈ Club.members club)) →
  (∀ c usr, c ≠ clubId → (c ∈ User.joinedClubs (upd usr) ↔ c ∈ User.joinedClubs usr)) →
  (∀ usr, users db !! userId = Some usr →
     (userId ∈ Club.members club' ↔ clubId ∈ User.joinedClubs (upd usr))) →
  consistent (mkDb cs' us' ms').
Proof using Type.
  intros Hcons Hc Hcs Hus Hnd Hothers Hjoined Hself c0 club0. simpl.
  rewrite Hcs. case_decide as Hc0.
  - subst c0. intros [= <-]. split; [done|]. intros v usr'. rewrite Hus.
    case_decide as Hv.
    + subst v. destruct (users db !! userId) as [usr|] eqn:Hu; [|done].
      simpl. intros [= <-]. by apply Hself.
    + intros Hu. rewrite (Hothers v Hv). by apply (Hcons clubId club Hc).
  - intros Hclub0. destruct (Hcons c0 club0 Hclub0) as [Hnd0 Hiff]. split; [done|].
    intros v usr'. rewrite Hus. case_decide as Hv.
    + subst v. destruct (users db !! userId) as [usr|] eqn:Hu; [|done].
      simpl. intros [= <-]. rewrite (Hjoined c0 usr Hc0). by apply Hiff.
    + by apply Hiff.
Qed.

Lemma lookup_insert_decide {A} (m : gmap string A) k x c :
  <[k := x]> m !! c = if decide (c = k) then Some x else m !! c.
Proof using Type.
  case_decide as E; [subst; apply lookup_insert_eq|by rewrite lookup_insert_ne].
Qed.

Lemma lookup_same_decide {A} (m : gmap string A) k x c :
  m !! k = Some x → m !! c = if decide (c = k) then Some x else m !! c.
Proof. intros Hk. case_decide; by subst. Qed.

Lemma lookup_alter_decide {A} (f : A → A) (m : gmap string A) k v :
  alter f k m !! v = if decide (v = k) then f <$> m !! v else m !! v.
Proof using Type.
  case_decide as E; [subst; apply lookup_alter_eq|by rewrite lookup_alter_ne].
Qed.

Lemma joinClub_consistent u clubId db :
  castObjectId clubId = clubId →
  consistent db → consistent (joinClub isValidId castObjectId u clubId db).2.
Proof using Type.
  intros Hcast Hcons.
  destruct (decide (cstatus (joinClub isValidId castObjectId u clubId db).1 = 200%nat)) as [Hok|Hno].
  2: { revert Hno. unfold joinClub. by repeat case_match. }
  destruct (joinClub_succeeded_inv u clubId db Hok)
    as (_ & _ & user & club & Hu & Hc & ->).
  rewrite Hcast in *.
  destruct (Hcons clubId club Hc) as [Hnd Hiff].
  eapply (consistent_update db clubId club
            (if bool_decide (req_id u ∈ Club.members club) then club
             else Club.mk (Club._id club) (Club.createdBy club)
                    (Club.members club ++ [req_id u]))
            (req_id u)
            (λ usr, if bool_decide (clubId ∈ User.joinedClubs usr) then usr
                    else User.mk (User._id usr) (User.isAdmin usr) (User.UserName usr)
                           (User.avatar usr) (User.joinedClubs usr ++ [clubId])));
    try done.
  - intros c. case_bool_decide; [by apply lookup_same_decide|apply lookup_insert_decide].
  - intros v. case_decide as Hv.
    + subst v. rewrite Hu. simpl. case_bool_decide; [done|apply lookup_insert_eq].
    + case_bool_decide; [done|by rewrite lookup_insert_ne].
  - case_bool_decide as Hm; [done|]. simpl. apply NoDup_app. split_and!; [done| |apply NoDup_singleton].
    intros x Hx ->%list_elem_of_singleton. done.
  - intros v Hv. case_bool_decide; [done|]. simpl. rewrite elem_of_app, list_elem_of_singleton.
    split; [by intros [?|?]|by left].
  - intros c usr Hne. case_bool_decide; [done|]. simpl.
    rewrite elem_of_app, list_elem_of_singleton. split; [by intros [?|?]|by left].
  - intros usr Hu'. rewrite Hu in Hu'. injection Hu' as <-. split; intros _.
    + destruct (bool_decide (clubId ∈ User.joinedClubs user)) eqn:E;
        [by apply bool_decide_eq_true in E|].
      simpl. apply elem_of_app. right. apply list_elem_of_here.
    + destruct (bool_decide (req_id u ∈ Club.members club)) eqn:E;
        [by apply bool_decide_eq_true in E|].
      simpl. apply elem_of_app. right. apply list_elem_of_here.
Qed.

(** Taking [userId] out of the club and the club out of [userId]'s joined
    clubs, as [leaveClub] and the remove-member route of clubs.js do. *)
Lemma consistent_remove db clubId club userId ms' :
  consistent db → clubs db !! clubId = Some club →
  consistent
    (mkDb (<[clubId := Club.mk (Club._id club) (Club.createdBy club)
                         (filter (λ member, member ≠ userId) (Club.members club))]>
             (clubs db))
          (pullJoinedClub userId clubId (users db)) ms').
Proof using Type.
  intros Hcons Hc. destruct (Hcons clubId club Hc) as [Hnd Hiff].
  apply (consistent_update db clubId club
           (Club.mk (Club._id club) (Club.createdBy club)
              (filter (λ member, member ≠ userId) (Club.members club)))
           userId
           (λ member,
              User.mk (User._id member) (User.isAdmin member) (User.UserName member)
                (User.avatar member)
                (filter (λ clubRef, clubRef ≠ clubId) (User.joinedClubs member))));
    try done.
  - intros c. apply lookup_insert_decide.
  - intros v. apply lookup_alter_decide.
  - simpl. by apply NoDup_filter.
  - intros v Hv. simpl. by apply filter_ne_elem_of.
  - intros c usr Hne. simpl. by apply filter_ne_elem_of.
  - intros usr Hu. simpl. split; intros [Hne _]%list_elem_of_filter; done.
Qed.

Lemma leaveClub_consistent u clubId db :
  consistent db → consistent (leaveClub isValidId u clubId db).2.
Proof using Type.
  intros Hcons. unfold leaveClub. destruct (_ || _); [done|].
  destruct (clubs db !! clubId) as [club|] eqn:Hc; [|done].
  case_bool_decide; [done|]. by apply consistent_remove.
Qed.

Lemma clubs_removeMember_consistent u clubId userId db :
  consistent db → consistent (clubs_removeMember isValidId u clubId userId db).2.
Proof using Type.
  intros Hcons. unfold clubs_removeMember. destruct (_ || _); [done|].
  destruct (clubs db !! clubId) as [club|] eqn:Hc; [|done].
  destruct (negb _); [done|]. destruct (negb _); [done|].
  by apply consistent_remove.
Qed.

Lemma removeMember_consistent u clubId userId db :
  castObjectId clubId = clubId →
  castObjectId userId = userId →
  consistent db →
  consistent (removeMember isValidId castObjectId u clubId userId db).2.
Proof using Type.
  intros Hcc Hcu Hcons. unfold removeMember. rewrite Hcc, Hcu.
  destruct (_ || _); [done|].
  destruct (clubs db !! clubId) as [club|] eqn:Hc; [|done].
  destruct (_ && _); [done|].
  destruct (findIndex userId (Club.members club)) as [i|] eqn:Hi; [|done].
  destruct (Hcons clubId club Hc) as [Hnd Hiff].
  rewrite (delete_findIndex _ _ _ Hnd Hi). simpl.
  pose proof (consistent_remove db clubId club userId (messages db) Hcons Hc) as Hrem.
  destruct (users db !! userId) as [member|] eqn:Hu; simpl.
  - match goal with
    | |- consistent (mkDb _ ?us _) =>
        replace us with (pullJoinedClub userId clubId (users db)); [exact Hrem|]
    end.
    unfold pullJoinedClub, toStringId. apply map_eq. intros k.
    rewrite lookup_alter_decide, lookup_insert_decide. case_decide; [|done].
    subst. by rewrite Hu.
  - match goal with
    | |- consistent (mkDb _ ?us _) =>
        replace us with (pullJoinedClub userId clubId (users db)); [exact Hrem|]
    end.
    unfold pullJoinedClub. apply map_eq. intros k.
    rewrite lookup_alter_decide. case_decide; [|done]. subst. by rewrite Hu.
Qed.

Lemma lookup_pullFromAll clubId (us : gmap string User.t) v usr' :
  pullFromAll clubId us !! v = Some usr' →
  ∃ usr, us !! v = Some usr ∧
    ∀ c, c ∈ User.joinedClubs usr' ↔ c ∈ User.joinedClubs usr ∧ c ≠ clubId.
Proof using Type.
  unfold pullFromAll. rewrite lookup_fmap.
  destruct (us !! v) as [usr|]; [|done]. simpl. intros [= <-].
  exists usr. split; [done|]. intros c. case_bool_decide as Hin; simpl.
  - rewrite list_elem_of_filter. split; intros [? ?]; by split.
  - split; [|by intros [? _]]. intros Hc. split; [done|]. by intros ->.
Qed.

Lemma deleteClub_consistent u id db :
  consistent db → consistent (deleteClub isValidId u id db).1.2.
Proof using Type.
  intros Hcons. unfold deleteClub. destruct (negb _); [done|].
  destruct (clubs db !! id) as [club|] eqn:Hc; [|done].
  destruct (negb _); [done|]. simpl.
  intros c club0. simpl. intros [Hne Hc0]%lookup_delete_Some.
  destruct (Hcons c club0 Hc0) as [Hnd Hiff]. split; [done|].
  intros v usr' (usr & Hu & Hj)%lookup_pullFromAll.
  rewrite (Hiff v usr Hu), Hj. assert (c ≠ id) by congruence.
  split; [by intros ?|by intros [? _]].
Qed.

(** X12: for identifiers spelled as they are stored, every route that
    changes membership keeps members and joined clubs in step.  If no member
    list has a duplicate and every user with a document is a member of
    exactly the clubs in the user's joined clubs, the same holds after
    joining, leaving, either remove-member route (whatever it answers) and
    the deletion of a club, when the request gives the club id and the
    target's user id in their stored spelling. *)
Theorem membership_routes_consistent u clubId userId db :
  castObjectId clubId = clubId →
  castObjectId userId = userId →
  consistent db →
  consistent (joinClub isValidId castObjectId u clubId db).2 ∧
  consistent (leaveClub isValidId u clubId db).2 ∧
  consistent (clubs_removeMember isValidId u clubId userId db).2 ∧
  consistent (removeMember isValidId castObjectId u clubId userId db).2 ∧
  consistent (deleteClub isValidId u clubId db).1.2.
Proof using Type.
  intros Hcc Hcu Hcons. split_and!.
  - by apply joinClub_consistent.
  - by apply leaveClub_consistent.
  - by apply clubs_removeMember_consistent.
  - by apply removeMember_consistent.
  - by apply deleteClub_consistent.
Qed.

(** X13: a new club starts with its creator as only member.  After a
    successful create under an unused identifier, the club is stored with
    the requester as creator and sole member, the club is among the
    requester's joined clubs, nothing else has changed, members and joined
    clubs are still in step, and the creator cannot leave the club. *)
Theorem createClub_effect u name book description newId db :
  consistent db →
  clubs db !! newId = None →
  (∀ v usr, users db !! v = Some usr → newId ∉ User.joinedClubs usr) →
  cstatus (createClub clubSchemaAccepts u name book description newId db).1 = 201%nat →
  clubs (createClub clubSchemaAccepts u name book description newId db).2 !! newId =
    Some (Club.mk newId (req_id u) [req_id u]) ∧
  (∀ usr', users (createClub clubSchemaAccepts u name book description newId db).2
             !! req_id u = Some usr' → newId ∈ User.joinedClubs usr') ∧
  (∀ c, c ≠ newId →
     clubs (createClub clubSchemaAccepts u name book description newId db).2 !! c =
     clubs db !! c) ∧
  (∀ v, v ≠ req_id u →
     users (createClub clubSchemaAccepts u name book description newId db).2 !! v =
     users db !! v) ∧
  messages (createClub clubSchemaAccepts u name book description newId db).2 = messages db ∧
  consistent (createClub clubSchemaAccepts u name book description newId db).2 ∧
  (leaveClub isValidId u newId
     (createClub clubSchemaAccepts u name book description newId db).2).2 =
    (createClub clubSchemaAccepts u name book description newId db).2 ∧
  ValidationError
    (leaveClub isValidId u newId
       (createClub clubSchemaAccepts u name book description newId db).2).1.
Proof using Type.
  intros Hcons Hfresh Hnoref. unfold createClub.
  destruct (truthy name) as [name'|]; [|done].
  destruct (truthy book) as [book'|]; [|done].
  destruct (truthy description) as [description'|]; [|done].
  destruct (decide (req_id u = "")); [done|].
  destruct (negb _); [done|]. simpl. intros _.
  set (db' := mkDb _ _ _).
  assert (Hnew : clubs db' !! newId = Some (Club.mk newId (req_id u) [req_id u]))
    by apply lookup_insert_eq.
  assert (Hjoined : ∀ usr', users db' !! req_id u = Some usr' → newId ∈ User.joinedClubs usr').
  { intros usr'. unfold db', addJoinedClub. simpl. rewrite lookup_alter_eq.
    destruct (users db !! req_id u) as [usr|]; [|done]. simpl. intros [= <-]. simpl.
    case_bool_decide; [done|]. apply elem_of_app. right. apply list_elem_of_here. }
  destruct (leaveClub_creator isValidId u newId db' _ Hnew eq_refl) as [H400 Hsame].
  split_and!; try done.
  - intros c Hc. unfold db'. simpl. by rewrite lookup_insert_ne.
  - intros v Hv. unfold db', addJoinedClub. simpl. by rewrite lookup_alter_ne.
  - intros c club0. unfold db'. simpl. rewrite lookup_insert_decide. case_decide as Hc.
    + subst c. intros [= <-]. simpl. split; [apply NoDup_singleton|].
      intros v usr'. unfold addJoinedClub. rewrite lookup_alter_decide.
      rewrite list_elem_of_singleton. case_decide as Hv.
      * subst v. intros Hu. split; [|done]. intros _. apply Hjoined.
        unfold db', addJoinedClub. simpl. by rewrite lookup_alter_eq.
      * intros Hu. split; [done|]. intros Hin. by apply Hnoref in Hu.
    + intros Hclub0. destruct (Hcons c club0 Hclub0) as [Hnd Hiff]. split; [done|].
      intros v usr'. unfold addJoinedClub. rewrite lookup_alter_decide.
      case_decide as Hv; [|by apply Hiff].
      subst v. destruct (users db !! req_id u) as [usr|] eqn:Hu; [|done].
      simpl. intros [= <-]. simpl. rewrite (Hiff _ _ Hu).
      case_bool_decide; [done|]. rewrite elem_of_app, list_elem_of_singleton.
      split; [by left|by intros [?|?]].
Qed.

(** X14: who may delete a club, and what the deletion takes with it.  An
    existing club is deleted exactly for its creator and for an
    administrator; anyone else gets a 403 and nothing happens.  After a
    deletion the club is gone, no user has it among the joined clubs, no
    other club and no user document has appeared or disappeared, and the
    creator is notified exactly when the deletion was done by an
    administrator other than the creator and the creator has a user
    document. *)
Theorem deleteClub_effect u id db club :
  isValidId id = true →
  clubs db !! id = Some club →
  (cstatus (deleteClub isValidId u id db).1.1 = 200%nat ↔
     req_id u = Club.createdBy club ∨ req_isAdmin u = true) ∧
  (cstatus (deleteClub isValidId u id db).1.1 ≠ 200%nat →
     cstatus (deleteClub isValidId u id db).1.1 = 403%nat ∧
     (deleteClub isValidId u id db).1.2 = db ∧
     (deleteClub isValidId u id db).2 = None) ∧
  (cstatus (deleteClub isValidId u id db).1.1 = 200%nat →
     clubs (deleteClub isValidId u id db).1.2 !! id = None ∧
     (∀ c, c ≠ id → clubs (deleteClub isValidId u id db).1.2 !! c = clubs db !! c) ∧
     (∀ v usr', users (deleteClub isValidId u id db).1.2 !! v = Some usr' →
        id ∉ User.joinedClubs usr') ∧
     (∀ v, is_Some (users (deleteClub isValidId u id db).1.2 !! v) ↔
           is_Some (users db !! v)) ∧
     ((deleteClub isValidId u id db).2 = Some (Club.createdBy club) ↔
        req_isAdmin u = true ∧ req_id u ≠ Club.createdBy club ∧
        is_Some (users db !! Club.createdBy club)) ∧
     ((deleteClub isValidId u id db).2 = None ∨
      (deleteClub isValidId u id db).2 = Some (Club.createdBy club))).
Proof using Type.
  intros Hv Hc. unfold deleteClub. rewrite Hv, Hc. simpl. unfold toStringId.
  assert (Hsome : ∀ v, is_Some (pullFromAll id (users db) !! v) ↔ is_Some (users db !! v)).
  { intros v. unfold pullFromAll. rewrite lookup_fmap. by rewrite fmap_is_Some. }
  assert (Hpulled : ∀ v usr', pullFromAll id (users db) !! v = Some usr' →
                              id ∉ User.joinedClubs usr').
  { intros v usr' (usr & _ & Hj)%lookup_pullFromAll. rewrite Hj. by intros [_ ?]. }
  case_bool_decide as Hcr; destruct (req_isAdmin u) eqn:Ha; simpl.
  - split_and!; [split; auto|done|]. intros _.
    split_and!; [apply lookup_delete_eq| |done|done| |by left].
    + intros c Hne. by rewrite lookup_delete_ne.
    + split; [done|]. by intros (_ & ? & _).
  - split_and!; [split; auto|done|]. intros _.
    split_and!; [apply lookup_delete_eq| |done|done| |by left].
    + intros c Hne. by rewrite lookup_delete_ne.
    + split; [done|]. by intros (? & _).
  - split_and!; [split; auto|done|]. intros _.
    split_and!; [apply lookup_delete_eq| |done|done| |].
    + intros c Hne. by rewrite lookup_delete_ne.
    + destruct (pullFromAll id (users db) !! Club.createdBy club) eqn:E.
      * split; [|done]. intros _. split_and!; [done|congruence|].
        apply Hsome. by eexists.
      * split; [done|]. intros (_ & _ & Hu%Hsome). rewrite E in Hu. by destruct Hu.
    + destruct (pullFromAll id (users db) !! Club.createdBy club); auto.
  - split_and!; [|done|done]. split; [done|]. intros [?|?]; congruence.
Qed.

(** X15: deleting a club leaves its messages behind, out of reach.  After a
    successful deletion every message is still stored; the listing of the
    club and the deletion of any of its messages answer 404 for everyone,
    administrators included, and nobody can send to the club. *)
Theorem deleteClub_orphans_messages u id db :
  cstatus (deleteClub isValidId u id db).1.1 = 200%nat →
  messages (deleteClub isValidId u id db).1.2 = messages db ∧
  (∀ u' L, NotFoundError (listMessages isValidId u' id L (deleteClub isValidId u id db).1.2).1) ∧
  (∀ u' mid now m,
     isValidId mid = true → messages db !! mid = Some m → Message.clubId m = id →
     deleteMessage isValidId u' mid now (deleteClub isValidId u id db).1.2 =
       (mkResponse 404 (ErrorJson "Club not found."), (deleteClub isValidId u id db).1.2)) ∧
  (∀ u' text now newId,
     ¬ succeeded (sendMessage isValidId u' text id now newId
                    (deleteClub isValidId u id db).1.2).1).
Proof using Type.
  unfold deleteClub. destruct (isValidId id) eqn:Hv; simpl; [|done].
  destruct (clubs db !! id) as [club|] eqn:Hc; simpl; [|done].
  destruct (negb _); simpl; [done|]. intros _.
  split_and!.
  - done.
  - intros u' L. unfold listMessages, NotFoundError. rewrite Hv. simpl.
    by rewrite lookup_delete_eq.
  - intros u' mid now m Hmid Hm <-. unfold deleteMessage. rewrite Hmid. simpl.
    rewrite Hm. by rewrite lookup_delete_eq.
  - intros u' text now newId. unfold sendMessage, succeeded.
    destruct (decide _); simpl; [by intros [|]|]. rewrite Hv. simpl.
    rewrite lookup_delete_eq. by intros [|].
Qed.

(** X22: a club id spelled otherwise than it is stored defeats the
    duplicate test of [joinClub].  When the joined clubs of the requester
    hold stored spellings and the request spells the club id differently,
    every successful join appends the club once more: after two joins the
    requester's joined clubs end with two copies of it. *)
Theorem joinClub_respelled_appends u clubId db user :
  users db !! req_id u = Some user →
  (∀ c, c ∈ User.joinedClubs user → castObjectId c = c) →
  castObjectId clubId ≠ clubId →
  cstatus (joinClub isValidId castObjectId u clubId db).1 = 200%nat →
  cstatus (joinClub isValidId castObjectId u clubId
             (joinClub isValidId castObjectId u clubId db).2).1 = 200%nat ∧
  (∃ user1,
     users (joinClub isValidId castObjectId u clubId db).2 !! req_id u = Some user1 ∧
     User.joinedClubs user1 = User.joinedClubs user ++ [castObjectId clubId]) ∧
  (∃ user2,
     users (joinClub isValidId castObjectId u clubId
              (joinClub isValidId castObjectId u clubId db).2).2 !! req_id u = Some user2 ∧
     User.joinedClubs user2 =
       User.joinedClubs user ++ [castObjectId clubId; castObjectId clubId]).
Proof using Type.
  intros Hu Hstored Hne Hok.
  destruct (joinClub_succeeded_inv u clubId db Hok)
    as (Hvu & Hvc & user0 & club & Hu0 & Hc & Hdb).
  rewrite Hu in Hu0. injection Hu0 as <-.
  assert (Hout : clubId ∉ User.joinedClubs user).
  { intros Hin. by apply Hne, Hstored. }
  rewrite (bool_decide_eq_false_2 _ Hout) in Hdb.
  set (user1 := User.mk (User._id user) (User.isAdmin user) (User.UserName user)
                  (User.avatar user) (User.joinedClubs user ++ [castObjectId clubId])).
  assert (Hu1 : users (joinClub isValidId castObjectId u clubId db).2 !! req_id u
                = Some user1).
  { rewrite Hdb. simpl. apply lookup_insert_eq. }
  assert (Hc1 : is_Some (clubs (joinClub isValidId castObjectId u clubId db).2
                           !! castObjectId clubId)).
  { rewrite Hdb. simpl. case_bool_decide; [by eexists|].
    rewrite lookup_insert_eq. by eexists. }
  destruct Hc1 as [club1 Hc1].
  assert (Hok2 : cstatus (joinClub isValidId castObjectId u clubId
                            (joinClub isValidId castObjectId u clubId db).2).1 = 200%nat).
  { unfold joinClub at 1. rewrite Hvu, Hvc. simpl. by rewrite Hu1, Hc1. }
  split_and!; [done|by exists user1|].
  destruct (joinClub_succeeded_inv u clubId _ Hok2)
    as (_ & _ & user1' & club1' & Hu1' & _ & Hdb2).
  rewrite Hu1 in Hu1'. injection Hu1' as <-.
  assert (Hout1 : clubId ∉ User.joinedClubs user1).
  { unfold user1. simpl. rewrite elem_of_app, list_elem_of_singleton.
    intros [Hin|Heq]; [done|]. by apply Hne. }
  rewrite (bool_decide_eq_false_2 _ Hout1) in Hdb2.
  eexists. rewrite Hdb2. simpl. split; [apply lookup_insert_eq|]. simpl.
  by rewrite <- app_assoc.
Qed.

(** X23: a club id spelled otherwise than it is stored makes the
    remove-member route of messages.js do half of its work.  When the
    joined clubs of the target hold stored spellings and the request spells
    the club id differently, a successful remove takes the target out of
    the club's member list and leaves the target's user document, with the
    club still among the joined clubs, as it was; if the club was among
    them, members and joined clubs are no longer in step. *)
Theorem removeMember_respelled_keeps_joinedClubs u clubId userId db member :
  users db !! castObjectId userId = Some member →
  (∀ c, c ∈ User.joinedClubs member → castObjectId c = c) →
  castObjectId clubId ≠ clubId →
  succeeded (removeMember isValidId castObjectId u clubId userId db).1 →
  users (removeMember isValidId castObjectId u clubId userId db).2 !! castObjectId userId
    = Some member ∧
  (∃ club i,
     clubs db !! castObjectId clubId = Some club ∧
     findIndex userId (Club.members club) = Some i ∧
     clubs (removeMember isValidId castObjectId u clubId userId db).2
       !! castObjectId clubId =
       Some (Club.mk (Club._id club) (Club.createdBy club)
               (delete i (Club.members club))) ∧
     (NoDup (Club.members club) → castObjectId userId = userId →
      castObjectId clubId ∈ User.joinedClubs member →
      ¬ consistent (removeMember isValidId castObjectId u clubId userId db).2)).
Proof using Type.
  intros Hu Hstored Hne. unfold removeMember, succeeded.
  destruct (_ || _); simpl; [by intros [|]|].
  destruct (clubs db !! castObjectId clubId) as [club|] eqn:Hc; simpl; [|by intros [|]].
  destruct (_ && _); simpl; [by intros [|]|].
  destruct (findIndex userId (Club.members club)) as [i|] eqn:Hi; simpl;
    [|by intros [|]].
  rewrite Hu. simpl. intros _.
  assert (Hkeep : filter (λ clubRef, toStringId clubRef ≠ clubId) (User.joinedClubs member)
                  = User.joinedClubs member).
  { unfold toStringId. apply filter_absent. intros Hin. by apply Hne, Hstored. }
  rewrite Hkeep, User_eta.
  split; [apply lookup_insert_eq|].
  exists club, i. split_and!; [done|done|apply lookup_insert_eq|].
  intros Hnd Hcu Hin Hcons.
  destruct (Hcons (castObjectId clubId) _ (lookup_insert_eq _ _ _)) as [_ Hiff].
  specialize (Hiff (castObjectId userId) member (lookup_insert_eq _ _ _)).
  simpl in Hiff. apply Hiff in Hin. rewrite Hcu in Hin.
  rewrite (delete_findIndex _ _ _ Hnd Hi) in Hin.
  by apply filter_ne_not_elem_of in Hin.
Qed.

End ClubFlow.

Global Instance byMemberCountDesc_trans : Transitive byMemberCountDesc.
Proof. unfold byMemberCountDesc. intros a b c. lia. Qed.

Global Instance byMemberCountDesc_total : Total byMemberCountDesc.
Proof. unfold byMemberCountDesc. intros a b. lia. Qed.

(** X16: the ranking shows at most ten clubs, largest first.  Every row is
    the identifier and member count of a stored club, the rows are in
    descending order of member count, there are as many rows as clubs up to
    ten, and no club left out has more members than a club that is shown. *)
Theorem rankings_top db :
  length (rankings db) = (10 `min` size (clubs db))%nat ∧
  StronglySorted byMemberCountDesc (rankings db) ∧
  (∀ row, row ∈ rankings db →
     ∃ k club, clubs db !! k = Some club ∧
               row = (Club._id club, length (Club.members club))) ∧
  ∃ rest,
    rankings db ++ rest ≡ₚ
      (λ club, (Club._id club, length (Club.members club))) <$> (map_to_list (clubs db)).*2 ∧
    ∀ shown hidden, shown ∈ rankings db → hidden ∈ rest → (hidden.2 ≤ shown.2)%nat.
Proof.
  unfold rankings.
  set (rows := (λ club, (Club._id club, length (Club.members club)))
                 <$> (map_to_list (clubs db)).*2).
  set (sorted := merge_sort byMemberCountDesc rows).
  assert (Hs : StronglySorted byMemberCountDesc sorted)
    by apply (StronglySorted_merge_sort byMemberCountDesc).
  assert (Hp : sorted ≡ₚ rows) by apply (merge_sort_Permutation byMemberCountDesc).
  rewrite <- (take_drop 10 sorted) in Hs.
  split_and!.
  - rewrite length_take, Hp. unfold rows. rewrite !length_fmap.
    by rewrite length_map_to_list.
  - by apply StronglySorted_app_1_l in Hs.
  - intros row (i & Hrow%list_elem_of_lookup_2 & _)%elem_of_take.
    rewrite Hp in Hrow. unfold rows in Hrow.
    apply list_elem_of_fmap in Hrow as (club & -> & Hclub).
    apply list_elem_of_fmap in Hclub as ([k club'] & -> & Hin).
    apply elem_of_map_to_list in Hin. by exists k, club'.
  - exists (drop 10 sorted). split; [by rewrite take_drop|].
    intros shown hidden Hshown Hhidden.
    by apply (StronglySorted_app_1_elem_of _ _ _ _ _ Hs Hshown Hhidden).
Qed.

(** ** The online registry over time *)

Lemma Map_get_Some_elem_of {V} k (v : V) (m : list (string * V)) :
  Map_get k m = Some v → (k, v) ∈ m.
Proof.
  induction m as [|[k' v'] m IH]; simpl; [done|].
  case_decide as E.
  - intros [= <-]. subst. apply list_elem_of_here.
  - intros Hm. apply list_elem_of_further. by apply IH.
Qed.

Lemma Map_get_NoDup {V} k (v : V) (m : list (string * V)) :
  NoDup m.*1 → (k, v) ∈ m → Map_get k m = Some v.
Proof.
  induction m as [|[k' v'] m IH]; simpl; [by intros _ ?%elem_of_nil|].
  intros [Hk Hnd]%NoDup_cons [[= -> ->]|Hin]%elem_of_cons.
  - by case_decide.
  - case_decide as E; [|by apply IH]. subst k'. exfalso. apply Hk.
    apply list_elem_of_fmap. by exists (k, v).
Qed.

Lemma Map_set_keys {V} k (v : V) (m : list (string * V)) :
  (Map_set k v m).*1 = if decide (k ∈ m.*1) then m.*1 else m.*1 ++ [k].
Proof.
  induction m as [|[k' v'] m IH].
  - destruct (decide (k ∈ ([] : list (string * V)).*1)) as [Hin|_]; [|done].
    by apply elem_of_nil in Hin.
  - cbn [Map_set]. rewrite !fmap_cons. cbn [fst].
    destruct (decide (k' = k)) as [->|Hne].
    + rewrite fmap_cons. cbn [fst].
      destruct (decide (k ∈ k :: m.*1)) as [|Hout]; [done|].
      exfalso. apply Hout, list_elem_of_here.
    + rewrite fmap_cons, IH. cbn [fst].
      destruct (decide (k ∈ m.*1)) as [Hin|Hout];
        destruct (decide (k ∈ k' :: m.*1)) as [Hin'|Hout']; try done.
      * exfalso. apply Hout'. by apply list_elem_of_further.
      * apply elem_of_cons in Hin' as [->|Hin']; done.
Qed.

Lemma Map_set_Forall {V} (P : string * V → Prop) k (v : V) (m : list (string * V)) :
  Forall P m → P (k, v) → Forall P (Map_set k v m).
Proof.
  intros Hm Hkv. induction Hm as [|[k' v'] m Hx Hm IH]; simpl.
  - by apply Forall_singleton.
  - case_decide; by apply Forall_cons.
Qed.

Lemma Set_add_mono x y (us : list string) : x ∈ us → x ∈ Set_add y us.
Proof.
  intros Hx. unfold Set_add. destruct (Set_has y us); [done|].
  apply elem_of_app. by left.
Qed.

Lemma Set_add_elem_of_iff x y (us : list string) : x ∈ Set_add y us ↔ x = y ∨ x ∈ us.
Proof.
  unfold Set_add, Set_has. case_bool_decide as Hy.
  - split; [by right|]. by intros [->|?].
  - rewrite elem_of_app, list_elem_of_singleton. tauto.
Qed.

Lemma wellFormed_online c srv :
  wellFormed srv → NoDup (online c srv) ∧ Forall (λ u, u ≠ "") (online c srv).
Proof.
  intros [_ Hall]. unfold online.
  destruct (Map_get c (onlineUsers srv)) as [us|] eqn:E; simpl.
  - apply Map_get_Some_elem_of in E. rewrite Forall_forall in Hall.
    by destruct (Hall _ E) as (_ & ? & ?).
  - split; [apply NoDup_nil_2|apply Forall_nil_2].
Qed.

Lemma wellFormed_joinRoom sid clubId userId srv :
  wellFormed srv → wellFormed (joinRoom sid clubId userId srv).1.
Proof.
  intros Hwf.
  destruct (truthy userId) as [u|] eqn:Eu; [|by rewrite joinRoom_ignored by auto].
  destruct (truthy clubId) as [c|] eqn:Ec; [|by rewrite joinRoom_ignored by auto].
  destruct (sockets srv !! sid) as [socket|] eqn:Es;
    [|by rewrite joinRoom_ignored by auto].
  apply truthy_Some in Eu as [-> Hu]. apply truthy_Some in Ec as [-> Hc].
  rewrite (joinRoom_connected _ _ _ _ _ Hc Hu Es). simpl.
  destruct (wellFormed_online c srv Hwf) as [Hnd Hne]. destruct Hwf as [Hkeys Hall].
  split; simpl.
  - rewrite Map_set_keys. case_decide; [done|].
    apply NoDup_app. split_and!; [done| |apply NoDup_singleton].
    by intros x Hx ->%list_elem_of_singleton.
  - apply Map_set_Forall; [done|]. simpl. split_and!; [done|by apply Set_add_NoDup|].
    apply Forall_forall. intros x [->|Hx]%Set_add_elem_of_iff; [done|].
    rewrite Forall_forall in Hne. by apply Hne.
Qed.

Lemma wellFormed_disconnect sid srv :
  wellFormed srv → wellFormed (disconnect sid srv).1.
Proof.
  intros Hwf. destruct (sockets srv !! sid) as [socket|] eqn:Es.
  2: { unfold disconnect. by rewrite Es. }
  destruct (userId socket) as [u|] eqn:Eu.
  2: { unfold disconnect. rewrite Es, Eu, sweep_None. by destruct Hwf. }
  rewrite (disconnect_connected _ _ _ _ Es Eu). destruct Hwf as [Hkeys Hall].
  split; simpl.
  - by rewrite <- list_fmap_compose.
  - apply Forall_fmap. eapply Forall_impl; [exact Hall|].
    intros [c us] (Hc & Hnd & Hne). simpl in *. split_and!; [done|by apply NoDup_filter|].
    rewrite Forall_forall in Hne |- *. intros x [_ Hx]%list_elem_of_filter.
    by apply Hne.
Qed.

(** X17: whatever sockets connect, join and disconnect, starting from the
    empty registry, the registry has one entry per club, no user twice in
    an online set, and no empty club or user id. *)
Theorem run_wellFormed evs : wellFormed (run evs initial).
Proof.
  unfold run.
  assert (Hstep : ∀ srv ev, wellFormed srv → wellFormed (handleEvent srv ev)).
  { intros srv [sid|sid clubId userId|sid] Hwf; simpl.
    - done.
    - by apply wellFormed_joinRoom.
    - by apply wellFormed_disconnect. }
  assert (Hinit : wellFormed initial).
  { split; simpl; [apply NoDup_nil_2|apply Forall_nil_2]. }
  revert Hinit. generalize initial. induction evs as [|ev evs IH]; intros srv Hwf; simpl.
  - done.
  - by apply IH, Hstep.
Qed.

(** X18: a disconnect takes the socket's user out of every online set, not
    only out of the clubs this socket joined; it touches no other user and
    removes no entry: a club whose set becomes empty keeps its empty
    entry. *)
Theorem disconnect_removes_everywhere sid srv socket u :
  sockets srv !! sid = Some socket →
  userId socket = Some u →
  (∀ c, u ∉ online c (disconnect sid srv).1) ∧
  (∀ c v, v ≠ u → (v ∈ online c (disconnect sid srv).1 ↔ v ∈ online c srv)) ∧
  (onlineUsers (disconnect sid srv).1).*1 = (onlineUsers srv).*1 ∧
  sockets (disconnect sid srv).1 !! sid = None.
Proof.
  intros Hs Hu. split_and!.
  - intros c. rewrite (online_disconnect _ _ _ _ c Hs Hu). apply filter_ne_not_elem_of.
  - intros c v Hv. rewrite (online_disconnect _ _ _ _ c Hs Hu).
    by apply filter_ne_elem_of.
  - rewrite (disconnect_connected _ _ _ _ Hs Hu). simpl.
    by rewrite <- list_fmap_compose.
  - rewrite (disconnect_connected _ _ _ _ Hs Hu). simpl. apply lookup_delete_eq.
Qed.

(** X19: a socket remembers only the last user it joined for.  When one
    socket joins for user [u1] and then for a different user [u2], its
    disconnect removes [u2] only: [u1] stays in the online set although no
    connection is left for it. *)
Theorem disconnect_leaves_earlier_user sid srv c1 c2 u1 u2 :
  is_Some (sockets srv !! sid) →
  c1 ≠ "" → c2 ≠ "" → u1 ≠ "" → u2 ≠ "" → u1 ≠ u2 →
  u1 ∈ online c1
         (disconnect sid
            (joinRoom sid (Some c2) (Some u2)
               (joinRoom sid (Some c1) (Some u1) srv).1).1).1 ∧
  (u2 ∉ online c2
          (disconnect sid
             (joinRoom sid (Some c2) (Some u2)
                (joinRoom sid (Some c1) (Some u1) srv).1).1).1) ∧
  sockets (disconnect sid
             (joinRoom sid (Some c2) (Some u2)
                (joinRoom sid (Some c1) (Some u1) srv).1).1).1 !! sid = None.
Proof.
  intros [socket Hs] Hc1 Hc2 Hu1 Hu2 Hne.
  set (srv1 := (joinRoom sid (Some c1) (Some u1) srv).1).
  assert (Hs1 : ∃ socket1, sockets srv1 !! sid = Some socket1).
  { unfold srv1. rewrite (joinRoom_connected _ _ _ _ _ Hc1 Hu1 Hs). simpl.
    eexists. apply lookup_insert_eq. }
  destruct Hs1 as [socket1 Hs1].
  assert (Hin1 : u1 ∈ online c1 srv1).
  { unfold srv1. rewrite (online_joinRoom _ _ _ _ _ c1 Hc1 Hu1 Hs).
    rewrite decide_True by done. apply Set_add_elem_of. }
  set (srv2 := (joinRoom sid (Some c2) (Some u2) srv1).1).
  assert (Hs2 : ∃ socket2, sockets srv2 !! sid = Some socket2 ∧ userId socket2 = Some u2).
  { unfold srv2. rewrite (joinRoom_connected _ _ _ _ _ Hc2 Hu2 Hs1). simpl.
    eexists. split; [apply lookup_insert_eq|done]. }
  destruct Hs2 as (socket2 & Hs2 & Hid2).
  assert (Hin2 : u1 ∈ online c1 srv2).
  { unfold srv2. rewrite (online_joinRoom _ _ _ _ _ c1 Hc2 Hu2 Hs1).
    case_decide; [subst; by apply Set_add_mono|done]. }
  split_and!.
  - rewrite (online_disconnect _ _ _ _ c1 Hs2 Hid2). by apply filter_ne_elem_of.
  - rewrite (online_disconnect _ _ _ _ c2 Hs2 Hid2). apply filter_ne_not_elem_of.
  - rewrite (disconnect_connected _ _ _ _ Hs2 Hid2). simpl. apply lookup_delete_eq.
Qed.

(** X20: entries of the registry are never dropped: a club that has an
    entry keeps it through every later connect, join and disconnect, also
    after its last user has gone. *)
Theorem run_keeps_entries evs srv c :
  c ∈ (onlineUsers srv).*1 → c ∈ (onlineUsers (run evs srv)).*1.
Proof.
  unfold run. revert srv. induction evs as [|ev evs IH]; intros srv Hc; simpl; [done|].
  apply IH. destruct ev as [sid|sid clubId userId|sid]; simpl.
  - done.
  - destruct (truthy userId) as [u|] eqn:Eu; [|by rewrite joinRoom_ignored by auto].
    destruct (truthy clubId) as [c'|] eqn:Ec; [|by rewrite joinRoom_ignored by auto].
    destruct (sockets srv !! sid) as [socket|] eqn:Es;
      [|by rewrite joinRoom_ignored by auto].
    apply truthy_Some in Eu as [-> Hu]. apply truthy_Some in Ec as [-> Hc'].
    rewrite (joinRoom_connected _ _ _ _ _ Hc' Hu Es). simpl.
    rewrite Map_set_keys. case_decide; [done|]. apply elem_of_app. by left.
  - destruct (sockets srv !! sid) as [socket|] eqn:Es.
    2: { unfold disconnect. by rewrite Es. }
    destruct (userId socket) as [u|] eqn:Eu.
    2: { unfold disconnect. by rewrite Es, Eu, sweep_None. }
    rewrite (disconnect_connected _ _ _ _ Es Eu). simpl.
    by rewrite <- list_fmap_compose.
Qed.

Lemma elem_of_sweep_emits u entries e :
  e ∈ (sweep (Some u) entries).2 ↔
  ∃ c us, (c, us) ∈ entries ∧ u ∈ us ∧
          (e = mkEmit c "onlineUsers" (filter (λ y, y ≠ u) us) ∨
           e = mkEmit c "updateOnlineUsers" (filter (λ y, y ≠ u) us)).
Proof.
  induction entries as [|[c us] rest IH]; simpl.
  - split; [by intros ?%elem_of_nil|]. by intros (? & ? & ?%elem_of_nil & _).
  - destruct (sweep (Some u) rest) as [rest' emits]. simpl in IH.
    unfold Set_has. case_bool_decide as Hin; simpl.
    + rewrite !elem_of_cons, IH. split.
      * intros [->|[->|(c' & us' & Hin' & Hu & He)]].
        -- exists c, us. split_and!; [apply list_elem_of_here|done|by left].
        -- exists c, us. split_and!; [apply list_elem_of_here|done|by right].
        -- exists c', us'. split_and!; [by apply list_elem_of_further|done|done].
      * intros (c' & us' & [[= -> ->]|Hin']%elem_of_cons & Hu & He).
        -- destruct He as [->| ->]; auto.
        -- right. right. by exists c', us'.
    + rewrite IH. split.
      * intros (c' & us' & Hin' & Hu & He).
        exists c', us'. split_and!; [by apply list_elem_of_further|done|done].
      * intros (c' & us' & [[= -> ->]|Hin']%elem_of_cons & Hu & He); [done|].
        by exists c', us'.
Qed.

(** X21: a disconnect notifies exactly the rooms whose online set it
    changed.  With one entry per club in the registry, an event goes to
    room [c] exactly when the socket's user was online in [c], and every
    event carries the online list of its club as the disconnect left it. *)
Theorem disconnect_notifies_changed sid srv socket u :
  NoDup (onlineUsers srv).*1 →
  sockets srv !! sid = Some socket →
  userId socket = Some u →
  (∀ c, c ∈ to <$> (disconnect sid srv).2 ↔ u ∈ online c srv) ∧
  (∀ e, e ∈ (disconnect sid srv).2 →
     payload e = online (to e) (disconnect sid srv).1 ∧
     (event e = "onlineUsers" ∨ event e = "updateOnlineUsers")).
Proof.
  intros Hkeys Hs Hu.
  assert (Hemits : (disconnect sid srv).2 = (sweep (Some u) (onlineUsers srv)).2).
  { unfold disconnect. rewrite Hs, Hu. by destruct (sweep _ _). }
  split.
  - intros c. rewrite Hemits, list_elem_of_fmap. split.
    + intros (e & -> & (c' & us & Hin & Hmem & He)%elem_of_sweep_emits).
      unfold online. destruct He as [-> | ->]; simpl;
        by rewrite (Map_get_NoDup _ _ _ Hkeys Hin).
    + unfold online. destruct (Map_get c (onlineUsers srv)) as [us|] eqn:E; simpl;
        [|by intros ?%elem_of_nil].
      intros Hmem. exists (mkEmit c "onlineUsers" (filter (λ y, y ≠ u) us)).
      split; [done|]. apply elem_of_sweep_emits. exists c, us.
      split_and!; [by apply Map_get_Some_elem_of|done|by left].
  - intros e. rewrite Hemits.
    intros (c & us & Hin & Hmem & He)%elem_of_sweep_emits.
    assert (Hon : online c (disconnect sid srv).1 = filter (λ y, y ≠ u) us).
    { rewrite (online_disconnect _ _ _ _ c Hs Hu). unfold online.
      by rewrite (Map_get_NoDup _ _ _ Hkeys Hin). }
    destruct He as [-> | ->]; simpl; rewrite Hon; auto.
Qed.

(** ** The further properties on the fixtures *)

Ltac not_member :=
  let H := fresh in
  intros H; repeat (apply elem_of_cons in H as [H|H]; [discriminate|]);
  by apply elem_of_nil in H.

Lemma db0_users v usr :
  users db0 !! v = Some usr →
  (v = uA ∧ usr = User.mk uA false "alice" "" [cA]) ∨
  (v = uB ∧ usr = User.mk uB false "bob" "" [cA]) ∨
  (v = uC ∧ usr = User.mk uC false "carol" "" []) ∨
  (v = uAdmin ∧ usr = User.mk uAdmin true "root" "" []).
Proof.
  unfold db0. simpl.
  intros Hu.
  destruct (decide (v = uA)) as [->|?]; [left; split; [done|]; by simplify_map_eq|].
  destruct (decide (v = uB)) as [->|?];
    [right; left; split; [done|]; by simplify_map_eq|].
  destruct (decide (v = uC)) as [->|?];
    [right; right; left; split; [done|]; by simplify_map_eq|].
  destruct (decide (v = uAdmin)) as [->|?];
    [right; right; right; split; [done|]; by simplify_map_eq|].
  by simplify_map_eq.
Qed.

Lemma db0_consistent : consistent db0.
Proof.
  intros c club Hc. unfold db0 in Hc. simpl in Hc.
  apply lookup_singleton_Some in Hc as [<- <-]. split.
  - apply NoDup_cons. split; [not_member|]. apply NoDup_singleton.
  - intros v usr [[-> ->]|[[-> ->]|[[-> ->]|[-> ->]]]]%db0_users; simpl.
    + split; intros _; [apply list_elem_of_here|apply list_elem_of_here].
    + split; intros _; [apply list_elem_of_here|].
      apply list_elem_of_further, list_elem_of_here.
    + split; [not_member|not_member].
    + split; [not_member|not_member].
Qed.

Lemma sendMessage_appends_witness :
  messages db0 !! m2 = None ∧
  succeeded (sendMessage hex24 reqA (Some " hi ") cA 2000 m2 db0).1 ∧
  ∃ m, messages (sendMessage hex24 reqA (Some " hi ") cA 2000 m2 db0).2 !! m2 = Some m ∧
       Message.message m = "hi".
Proof.
  assert (H1 : messages db0 !! m2 = None) by reflexivity.
  assert (H2 : succeeded (sendMessage hex24 reqA (Some " hi ") cA 2000 m2 db0).1)
    by (right; reflexivity).
  destruct (sendMessage_appends hex24 reqA (Some " hi ") cA 2000 m2 db0 H1 H2)
    as (m & Hm & Htext & _).
  split_and!; [done|done|]. exists m. split; [done|]. rewrite Htext. reflexivity.
Defined.

Lemma sendMessage_then_deleteMessage_witness :
  messages db0 !! m2 = None ∧ hex24 m2 = true ∧
  succeeded (sendMessage hex24 reqA (Some " hi ") cA 2000 m2 db0).1 ∧
  (3000 - 2000 ≤ 5 * 60 * 1000)%Z ∧
  deleteMessage hex24 reqA m2 3000 (sendMessage hex24 reqA (Some " hi ") cA 2000 m2 db0).2 =
    (mkResponse 200 (SuccessJson "Message deleted successfully."), db0).
Proof.
  assert (H1 : messages db0 !! m2 = None) by reflexivity.
  assert (H2 : hex24 m2 = true) by reflexivity.
  assert (H3 : succeeded (sendMessage hex24 reqA (Some " hi ") cA 2000 m2 db0).1)
    by (right; reflexivity).
  assert (H4 : (3000 - 2000 ≤ 5 * 60 * 1000)%Z) by (vm_compute; discriminate).
  split_and!; [done|done|done|done|].
  exact (sendMessage_then_deleteMessage hex24 reqA (Some " hi ") cA 2000 m2 db0 3000
           H1 H2 H3 H4).
Defined.

Lemma editMessage_idempotent_witness :
  (121000 ≤ 200000)%Z ∧ (121000 ≤ 400000)%Z ∧
  (editMessage hex24 reqB m1 (Some "hello world") 200000
     (editMessage hex24 reqB m1 (Some "hello world") 121000 db0).2).1 =
    (editMessage hex24 reqB m1 (Some "hello world") 121000 db0).1 ∧
  (editMessage hex24 reqB m1 (Some "hello world") 400000
     (editMessage hex24 reqB m1 (Some "hello world") 121000 db0).2).1 =
    mkResponse 403
      (ErrorJson "Messages can only be edited within five minutes of sending.") ∧
  (editMessage hex24 reqB m1 (Some "hello world") 400000
     (editMessage hex24 reqB m1 (Some "hello world") 121000 db0).2).2 =
    (editMessage hex24 reqB m1 (Some "hello world") 121000 db0).2.
Proof.
  assert (H1 : (121000 ≤ 200000)%Z) by (vm_compute; discriminate).
  assert (H2 : (121000 ≤ 400000)%Z) by (vm_compute; discriminate).
  assert (Hm : messages db0 !! m1 = Some message1) by reflexivity.
  destruct (editMessage_idempotent hex24 reqB m1 (Some "hello world") 121000 200000 db0 H1)
    as (_ & Hsame & _).
  destruct (editMessage_idempotent hex24 reqB m1 (Some "hello world") 121000 400000 db0 H2)
    as (Hstore & _ & Hlate & _).
  split_and!; [done|done| | |done].
  - apply Hsame. intros m Hm'. rewrite Hm in Hm'. injection Hm' as <-.
    vm_compute. discriminate.
  - apply (Hlate (or_introl eq_refl) message1 Hm). reflexivity.
Defined.

Lemma deleteMessage_removes_one_witness :
  messages db0 !! m1 = Some message1 ∧
  succeeded (deleteMessage hex24 reqA m1 700000 db0).1 ∧
  messages (deleteMessage hex24 reqA m1 700000 db0).2 !! m1 = None ∧
  S (length (clubMessages (Message.clubId message1)
               (deleteMessage hex24 reqA m1 700000 db0).2)) =
    length (clubMessages (Message.clubId message1) db0).
Proof.
  assert (H1 : messages db0 !! m1 = Some message1) by reflexivity.
  assert (H2 : succeeded (deleteMessage hex24 reqA m1 700000 db0).1)
    by (left; reflexivity).
  destruct (deleteMessage_removes_one hex24 reqA m1 700000 db0 message1 H1 H2)
    as (Hgone & Hcount & _).
  by split_and!.
Defined.

Lemma listMessages_bounds_witness :
  hex24 cA = true ∧ clubs db0 !! cA = Some clubA ∧ req_id reqA ∈ Club.members clubA ∧
  ∃ l, (listMessages hex24 reqA cA (Finite 0) db0).1 = mkResponse 200 (Docs l) ∧
       (length l ≤ 500)%nat ∧ (l = [] ↔ clubMessages cA db0 = []).
Proof.
  assert (H1 : hex24 cA = true) by reflexivity.
  assert (H2 : clubs db0 !! cA = Some clubA) by reflexivity.
  assert (H3 : req_id reqA ∈ Club.members clubA) by apply list_elem_of_here.
  split_and!; [done|done|done|].
  exact (listMessages_bounds hex24 reqA cA (Finite 0) db0 clubA H1 H2 H3).
Defined.

Lemma joinClub_grants_witness :
  lowerHex cA = cA ∧
  cstatus (joinClub hex24 lowerHex reqC cA db0).1 = 200%nat ∧
  (joinClub hex24 lowerHex reqC cA (joinClub hex24 lowerHex reqC cA db0).2).2 = (joinClub hex24 lowerHex reqC cA db0).2 ∧
  succeeded (sendMessage hex24 reqC (Some "hello") cA 5000 m2 (joinClub hex24 lowerHex reqC cA db0).2).1.
Proof.
  assert (H1 : cstatus (joinClub hex24 lowerHex reqC cA db0).1 = 200%nat) by reflexivity.
  destruct (joinClub_grants hex24 lowerHex reqC cA db0 eq_refl H1)
    as (_ & Hidem & Hsend & _).
  split_and!; [done|done|done|]. apply Hsend. discriminate.
Defined.

Lemma joinClub_then_leaveClub_witness :
  lowerHex cA = cA ∧
  clubs db0 !! cA = Some clubA ∧
  users db0 !! req_id reqC = Some (User.mk uC false "carol" "" []) ∧
  (req_id reqC ∉ Club.members clubA) ∧
  req_id reqC ≠ Club.createdBy clubA ∧
  cstatus (joinClub hex24 lowerHex reqC cA db0).1 = 200%nat ∧
  leaveClub hex24 reqC cA (joinClub hex24 lowerHex reqC cA db0).2 =
    (mkResponse 200 (MessageJson "Left club successfully"), db0).
Proof.
  assert (H1 : clubs db0 !! cA = Some clubA) by reflexivity.
  assert (H2 : users db0 !! req_id reqC = Some (User.mk uC false "carol" "" []))
    by reflexivity.
  assert (H3 : req_id reqC ∉ Club.members clubA) by not_member.
  assert (H4 : cA ∉ User.joinedClubs (User.mk uC false "carol" "" [])) by not_member.
  assert (H5 : req_id reqC ≠ Club.createdBy clubA) by discriminate.
  assert (H6 : cstatus (joinClub hex24 lowerHex reqC cA db0).1 = 200%nat) by reflexivity.
  split_and!; [done|done|done|done|done|done|].
  exact (joinClub_then_leaveClub hex24 lowerHex reqC cA db0 clubA _ eq_refl
           H1 H2 H3 H4 H5 H6).
Defined.

Lemma leaveClub_effect_witness :
  hex24 cA = true ∧ hex24 (req_id reqC) = true ∧ clubs db0 !! cA = Some clubA ∧
  req_id reqC ≠ Club.createdBy clubA ∧
  (leaveClub hex24 reqC cA db0).1 = mkResponse 200 (MessageJson "Left club successfully").
Proof.
  assert (H1 : hex24 cA = true) by reflexivity.
  assert (H2 : hex24 (req_id reqC) = true) by reflexivity.
  assert (H3 : clubs db0 !! cA = Some clubA) by reflexivity.
  assert (H4 : req_id reqC ≠ Club.createdBy clubA) by discriminate.
  destruct (leaveClub_effect hex24 reqC cA db0 clubA H1 H2 H3 H4) as (Hok & _).
  by split_and!.
Defined.

Lemma getClub_permission_witness :
  hex24 cA = true ∧ clubs db0 !! cA = Some clubA ∧
  is_Some (users db0 !! req_id reqB) ∧ is_Some (users db0 !! req_id reqC) ∧
  cstatus (getClub hex24 reqB cA db0) = 200%nat ∧
  getClub hex24 reqC cA db0 =
    mkClubsResponse 403
      (CMessage "You must be a member or the club creator to view details.").
Proof.
  assert (H1 : hex24 cA = true) by reflexivity.
  assert (H2 : clubs db0 !! cA = Some clubA) by reflexivity.
  assert (H3 : is_Some (users db0 !! req_id reqB)) by (eexists; reflexivity).
  assert (H4 : is_Some (users db0 !! req_id reqC)) by (eexists; reflexivity).
  destruct (getClub_permission hex24 reqB cA db0 clubA H1 H2 H3) as (Hiff & _).
  destruct (getClub_permission hex24 reqC cA db0 clubA H1 H2 H4) as (HiffC & Hno & _).
  split_and!; [done|done|done|done| |].
  - apply Hiff. left. apply list_elem_of_further, list_elem_of_here.
  - apply Hno. intros [Hin|Heq]%HiffC; [|discriminate Heq].
    revert Hin. not_member.
Defined.

Lemma clubs_removeMember_revokes_witness :
  succeeded (clubs_removeMember hex24 reqA cA uB db0).1 ∧
  PermissionError
    (listMessages hex24 reqB cA NaN (clubs_removeMember hex24 reqA cA uB db0).2).1.
Proof.
  assert (H1 : succeeded (clubs_removeMember hex24 reqA cA uB db0).1)
    by (left; reflexivity).
  destruct (clubs_removeMember_revokes hex24 reqA cA uB db0 H1)
    as (club' & _ & _ & _ & _ & Hlist & _).
  split; [done|]. apply (Hlist false NaN).
Defined.

Lemma removeMember_routes_agree_witness :
  lowerHex cA = cA ∧ lowerHex uB = uB ∧
  (∀ club, clubs db0 !! cA = Some club → NoDup (Club.members club)) ∧
  is_Some (users db0 !! uB) ∧
  (removeMember hex24 lowerHex reqA cA uB db0).2 = (clubs_removeMember hex24 reqA cA uB db0).2.
Proof.
  assert (H1 : ∀ club, clubs db0 !! cA = Some club → NoDup (Club.members club)).
  { intros club Hc. exact (proj1 (db0_consistent cA club Hc)). }
  assert (H2 : is_Some (users db0 !! uB)) by (eexists; reflexivity).
  destruct (removeMember_routes_agree hex24 lowerHex reqA cA uB db0 eq_refl eq_refl H1 H2)
    as (_ & Hdb).
  by split_and!.
Defined.

Lemma membership_routes_consistent_witness :
  lowerHex cA = cA ∧ lowerHex uB = uB ∧ consistent db0 ∧
  consistent (joinClub hex24 lowerHex reqC cA db0).2 ∧
  consistent (removeMember hex24 lowerHex reqA cA uB db0).2.
Proof.
  destruct (membership_routes_consistent hex24 lowerHex reqC cA uB db0
              eq_refl eq_refl db0_consistent)
    as (Hjoin & _).
  destruct (membership_routes_consistent hex24 lowerHex reqA cA uB db0
              eq_refl eq_refl db0_consistent)
    as (_ & _ & _ & Hremove & _).
  split_and!; [done|done|apply db0_consistent|done|done].
Defined.

Lemma createClub_effect_witness :
  consistent db0 ∧ clubs db0 !! cB = None ∧
  cstatus (createClub anyClub reqC (Some " Readers ") (Some m1) (Some "weekly") cB db0).1
    = 201%nat ∧
  clubs (createClub anyClub reqC (Some " Readers ") (Some m1) (Some "weekly") cB db0).2 !! cB
    = Some (Club.mk cB uC [uC]) ∧
  consistent (createClub anyClub reqC (Some " Readers ") (Some m1) (Some "weekly") cB db0).2.
Proof.
  assert (H1 : clubs db0 !! cB = None) by reflexivity.
  assert (H2 : ∀ v usr, users db0 !! v = Some usr → cB ∉ User.joinedClubs usr).
  { intros v usr [[-> ->]|[[-> ->]|[[-> ->]|[-> ->]]]]%db0_users; simpl; not_member. }
  assert (H3 : cstatus (createClub anyClub reqC (Some " Readers ") (Some m1)
                          (Some "weekly") cB db0).1 = 201%nat) by reflexivity.
  destruct (createClub_effect hex24 anyClub reqC (Some " Readers ") (Some m1)
              (Some "weekly") cB db0 db0_consistent H1 H2 H3)
    as (Hnew & _ & _ & _ & _ & Hcons & _).
  split_and!; [apply db0_consistent|done|done|done|done].
Defined.

Lemma deleteClub_effect_witness :
  hex24 cA = true ∧ clubs db0 !! cA = Some clubA ∧
  cstatus (deleteClub hex24 reqAdmin cA db0).1.1 = 200%nat ∧
  (deleteClub hex24 reqAdmin cA db0).2 = Some uA ∧
  cstatus (deleteClub hex24 reqB cA db0).1.1 = 403%nat.
Proof.
  assert (H1 : hex24 cA = true) by reflexivity.
  assert (H2 : clubs db0 !! cA = Some clubA) by reflexivity.
  destruct (deleteClub_effect hex24 reqAdmin cA db0 clubA H1 H2) as (Hiff & _ & Hok).
  destruct (deleteClub_effect hex24 reqB cA db0 clubA H1 H2) as (_ & Hno & _).
  assert (H200 : cstatus (deleteClub hex24 reqAdmin cA db0).1.1 = 200%nat)
    by (apply Hiff; by right).
  destruct (Hok H200) as (_ & _ & _ & _ & Hnote & _).
  split_and!; [done|done|done| |].
  - apply Hnote. split_and!; [done|discriminate|eexists; reflexivity].
  - apply Hno. discriminate.
Defined.

Lemma deleteClub_orphans_messages_witness :
  cstatus (deleteClub hex24 reqA cA db0).1.1 = 200%nat ∧
  messages (deleteClub hex24 reqA cA db0).1.2 !! m1 = Some message1 ∧
  (deleteMessage hex24 reqAdmin m1 2000 (deleteClub hex24 reqA cA db0).1.2).1 =
    mkResponse 404 (ErrorJson "Club not found.").
Proof.
  assert (H1 : cstatus (deleteClub hex24 reqA cA db0).1.1 = 200%nat) by reflexivity.
  destruct (deleteClub_orphans_messages hex24 reqA cA db0 H1) as (Hmsgs & _ & Hdel & _).
  split_and!; [done|by rewrite Hmsgs|].
  by rewrite (Hdel reqAdmin m1 2000%Z message1 eq_refl eq_refl eq_refl).
Defined.

Lemma disconnect_removes_everywhere_witness :
  sockets tabsJoined !! "tab1" = Some (mkSocket (Some "X") ["tab1"; "C2"]) ∧
  (∀ c, "X" ∉ online c (disconnect "tab1" tabsJoined).1) ∧
  (onlineUsers (disconnect "tab1" tabsJoined).1).*1 = (onlineUsers tabsJoined).*1.
Proof.
  assert (H1 : sockets tabsJoined !! "tab1" = Some (mkSocket (Some "X") ["tab1"; "C2"]))
    by reflexivity.
  destruct (disconnect_removes_everywhere "tab1" tabsJoined _ "X" H1 eq_refl)
    as (Hgone & _ & Hkeys & _).
  by split_and!.
Defined.

Lemma disconnect_leaves_earlier_user_witness :
  is_Some (sockets twoTabs !! "tab1") ∧ "X" ≠ "Y" ∧
  "X" ∈ online "C1"
          (disconnect "tab1"
             (joinRoom "tab1" (Some "C2") (Some "Y")
                (joinRoom "tab1" (Some "C1") (Some "X") twoTabs).1).1).1.
Proof.
  assert (H1 : is_Some (sockets twoTabs !! "tab1")) by (eexists; reflexivity).
  assert (H2 : "X" ≠ "Y") by discriminate.
  destruct (disconnect_leaves_earlier_user "tab1" twoTabs "C1" "C2" "X" "Y" H1)
    as (Hstays & _); try discriminate.
  by split_and!.
Defined.

Lemma run_keeps_entries_witness :
  "C2" ∈ (onlineUsers tabsJoined).*1 ∧
  "C2" ∈ (onlineUsers (run [Disconnect "tab1"; Disconnect "tab2"] tabsJoined)).*1 ∧
  online "C2" (run [Disconnect "tab1"; Disconnect "tab2"] tabsJoined) = [].
Proof.
  assert (H1 : "C2" ∈ (onlineUsers tabsJoined).*1) by (vm_compute; apply list_elem_of_here).
  split_and!; [done| |reflexivity].
  exact (run_keeps_entries [Disconnect "tab1"; Disconnect "tab2"] tabsJoined "C2" H1).
Defined.

Lemma disconnect_notifies_changed_witness :
  NoDup (onlineUsers tabsJoined).*1 ∧
  sockets tabsJoined !! "tab1" = Some (mkSocket (Some "X") ["tab1"; "C2"]) ∧
  "C2" ∈ to <$> (disconnect "tab1" tabsJoined).2.
Proof.
  assert (H1 : NoDup (onlineUsers tabsJoined).*1) by (vm_compute; apply NoDup_singleton).
  assert (H2 : sockets tabsJoined !! "tab1" = Some (mkSocket (Some "X") ["tab1"; "C2"]))
    by reflexivity.
  destruct (disconnect_notifies_changed "tab1" tabsJoined _ "X" H1 H2 eq_refl)
    as (Hiff & _).
  split_and!; [done|done|]. apply Hiff. vm_compute. apply list_elem_of_here.
Defined.

Lemma joinClub_respelled_appends_witness :
  users db0 !! req_id reqB = Some (User.mk uB false "bob" "" [cA]) ∧
  lowerHex cAupper ≠ cAupper ∧
  cstatus (joinClub hex24 lowerHex reqB cAupper db0).1 = 200%nat ∧
  ∃ user2,
    users (joinClub hex24 lowerHex reqB cAupper
             (joinClub hex24 lowerHex reqB cAupper db0).2).2 !! req_id reqB = Some user2 ∧
    User.joinedClubs user2 = [cA; cA; cA].
Proof.
  assert (H1 : users db0 !! req_id reqB = Some (User.mk uB false "bob" "" [cA]))
    by reflexivity.
  assert (H2 : ∀ c, c ∈ User.joinedClubs (User.mk uB false "bob" "" [cA]) → lowerHex c = c).
  { intros c Hc. apply list_elem_of_singleton in Hc. by subst c. }
  assert (H3 : lowerHex cAupper ≠ cAupper) by discriminate.
  assert (H4 : cstatus (joinClub hex24 lowerHex reqB cAupper db0).1 = 200%nat)
    by reflexivity.
  destruct (joinClub_respelled_appends hex24 lowerHex reqB cAupper db0 _ H1 H2 H3 H4)
    as (_ & _ & user2 & Hu2 & Hj2).
  split_and!; [done|done|done|]. by exists user2.
Defined.

Lemma removeMember_respelled_keeps_joinedClubs_witness :
  users db0 !! lowerHex uB = Some (User.mk uB false "bob" "" [cA]) ∧
  lowerHex cAupper ≠ cAupper ∧
  succeeded (removeMember hex24 lowerHex reqA cAupper uB db0).1 ∧
  users (removeMember hex24 lowerHex reqA cAupper uB db0).2 !! lowerHex uB =
    Some (User.mk uB false "bob" "" [cA]) ∧
  Club.members <$> clubs (removeMember hex24 lowerHex reqA cAupper uB db0).2 !! cA =
    Some [uA].
Proof.
  assert (H1 : users db0 !! lowerHex uB = Some (User.mk uB false "bob" "" [cA]))
    by reflexivity.
  assert (H2 : ∀ c, c ∈ User.joinedClubs (User.mk uB false "bob" "" [cA]) → lowerHex c = c).
  { intros c Hc. apply list_elem_of_singleton in Hc. by subst c. }
  assert (H3 : lowerHex cAupper ≠ cAupper) by discriminate.
  assert (H4 : succeeded (removeMember hex24 lowerHex reqA cAupper uB db0).1)
    by (left; reflexivity).
  destruct (removeMember_respelled_keeps_joinedClubs hex24 lowerHex reqA cAupper uB db0 _
              H1 H2 H3 H4) as (Hkept & _).
  split_and!; [done|done|done|done|reflexivity].
Defined.
